(** * PathRAG/llm.py: the Azure OpenAI adapters and the MultiModel dispatcher

    A shallow embedding of [PathRAG/llm.py].  Python values are a small
    inductive type, keyword-argument dictionaries are finite maps with string
    keys, the process environment is a finite map from names to strings, and
    every function that touches the environment, the provider or the clock is
    a state-and-exception computation over [World]. *)

From Stdlib Require Import ZArith Lia Ascii String.
From Stdlib Require Import Floats.
From stdpp Require Import base option list strings gmap fin_maps.

Local Open Scope string_scope.
Local Open Scope list_scope.
Local Open Scope Z_scope.
#[local] Set Warnings "-register-all".

(** ** Python values *)

Inductive pyval : Type :=
  | PyNone
  | PyBool (b : bool)
  | PyInt (z : Z)
  | PyStr (s : string)
  | PyList (items : list pyval)
  | PyDict (items : list (string * pyval)).

(** Truth value testing, as used by [if x:]. *)
Definition truthy (v : pyval) : bool :=
  match v with
  | PyNone => false
  | PyBool b => b
  | PyInt z => negb (Z.eqb z 0)
  | PyStr s => negb (String.eqb s "")
  | PyList l => match l with [] => false | _ => true end
  | PyDict d => match d with [] => false | _ => true end
  end.

(** ** Exceptions and results *)

Inductive exn : Type :=
  | RateLimitError
  | APIConnectionError
  | Timeout
  | TypeError
  | AttributeError
  | ZeroDivisionError
  | IndexError
  | ValueError
  | OpenAIError
  | ProviderError (status : Z)
  | RetryError (last_attempt : exn).

Fixpoint exn_eqb (a b : exn) : bool :=
  match a, b with
  | RateLimitError, RateLimitError => true
  | APIConnectionError, APIConnectionError => true
  | Timeout, Timeout => true
  | TypeError, TypeError => true
  | AttributeError, AttributeError => true
  | ZeroDivisionError, ZeroDivisionError => true
  | IndexError, IndexError => true
  | ValueError, ValueError => true
  | OpenAIError, OpenAIError => true
  | ProviderError s, ProviderError t => Z.eqb s t
  | RetryError x, RetryError y => exn_eqb x y
  | _, _ => false
  end.

Inductive result (A : Type) : Type :=
  | Ok (a : A)
  | Raise (e : exn).
Arguments Ok {A} a.
Arguments Raise {A} e.

(** ** The world: environment, provider traffic, clock *)

(** The client object built by [AsyncAzureOpenAI(...)]: the three settings
    are whatever [os.getenv] returned, [None] for an unset variable. *)
Record AsyncAzureOpenAI : Type := {
  client_azure_endpoint : option string;
  client_api_key : option string;
  client_api_version : option string;
}.

Inductive api_call : Type :=
  | ChatCompletionsCreate (model : pyval) (messages : list pyval)
                          (kwargs : gmap string pyval)
  | EmbeddingsCreate (model : pyval) (input : list string)
                     (encoding_format : string).

Record request : Type := {
  req_client : AsyncAzureOpenAI;
  req_call : api_call;
}.

Record World : Type := {
  environ : gmap string string;   (* os.environ *)
  sent : list request;            (* calls of [create] so far, oldest first *)
  slept : list Z;                 (* delays slept so far, oldest first *)
}.

Definition Py (A : Type) : Type := World -> result A * World.

Definition ret {A} (a : A) : Py A := fun w => (Ok a, w).
Definition raise {A} (e : exn) : Py A := fun w => (Raise e, w).
Definition bind {A B} (c : Py A) (k : A -> Py B) : Py B :=
  fun w =>
    match c w with
    | (Ok a, w') => k a w'
    | (Raise e, w') => (Raise e, w')
    end.

Notation "'do' x <- c ; k" := (bind c (fun x => k))
  (at level 10, x name, c at level 100, k at level 200).
Notation "'run' c ; k" := (bind c (fun _ => k))
  (at level 10, c at level 100, k at level 200).

(** [os.environ[name] = value]: the value must be a [str]. *)
Definition os_environ_set (name : string) (value : pyval) : Py unit :=
  fun w =>
    match value with
    | PyStr s =>
        (Ok tt, {| environ := <[name := s]> (environ w);
                   sent := sent w; slept := slept w |})
    | _ => (Raise TypeError, w)
    end.

(** [os.getenv(name)] *)
Definition os_getenv (name : string) : Py (option string) :=
  fun w => (Ok (environ w !! name), w).

(** [await asyncio.sleep(delay)], as tenacity does between attempts. *)
Definition sleep (delay : Z) : Py unit :=
  fun w => (Ok tt, {| environ := environ w; sent := sent w;
                      slept := slept w ++ [delay] |}).

(** ** The provider

    The SDK and the remote service are outside the module.  A provider is an
    oracle.  It says whether the SDK's constructor accepts a client, given
    the process environment and the three settings passed to it (the
    constructor raises when it finds a setting neither among its arguments
    nor in the environment).  And it answers the n-th call of [create] of
    the process (n counts from 0) once that call is awaited; its answer is a
    value or an exception, so a provider that fails on some attempts and
    succeeds on others is a function of n.  A call of [create] that is never
    awaited is recorded in [sent] like the others, and contacts nobody. *)

Record Choice : Type := { message_content : pyval }.        (* choices[i].message.content *)
Record ChunkChoice : Type := { delta : gmap string pyval }. (* choices[i].delta *)
Record ChatCompletionChunk : Type := { chunk_choices : list ChunkChoice }.

(** What an awaited [chat.completions.create] hands back: one completion, or
    (when the request carries [stream=True]) an iterable of chunks that may
    end in an exception raised while reading it. *)
Inductive chat_response : Type :=
  | Completion (choices : list Choice)
  | Stream (chunks : list ChatCompletionChunk) (failure : option exn).

Record Embedding : Type := { embedding : list float }.      (* response.data[i].embedding *)

Record Provider : Type := {
  new_client : gmap string string -> AsyncAzureOpenAI -> option exn;
  chat_completions_create : nat -> request -> result chat_response;
  embeddings_create : nat -> request -> result (list Embedding);
}.

(** ** tenacity: [retry], [stop_after_attempt], [wait_exponential],
    [retry_if_exception_type] *)

Module tenacity.

(** [stop_after_attempt(n)]: stop once [attempt_number >= n]. *)
Definition stop_after_attempt (max_attempt_number attempt_number : Z) : bool :=
  max_attempt_number <=? attempt_number.

(** [wait_exponential(multiplier, min, max)] with the default base 2:
    [max(max(0, min), min(multiplier * 2 ** (attempt_number - 1), max))].
    (Releases that raise 2 to [attempt_number] give the same two waits under
    the policy used here: both 2 and 4 are lifted to the minimum 4.) *)
Definition wait_exponential (multiplier min max attempt_number : Z) : Z :=
  let exp := 2 ^ (attempt_number - 1) in
  let result := multiplier * exp in
  Z.max (Z.max 0 min) (Z.min result max).

(** [retry_if_exception_type(types)]: retry when the exception is one of
    [types]. *)
Definition retry_if_exception_type (types : list exn) (e : exn) : bool :=
  existsb (exn_eqb e) types.

Record policy : Type := {
  stop : Z -> bool;
  wait : Z -> Z;
  retry_on : exn -> bool;
}.

(** The retry loop.  Attempts are numbered from 1.  A result is returned;
    an exception the policy does not retry is re-raised as it is; a retried
    exception raises [RetryError] once [stop] holds, and otherwise the
    loop sleeps [wait attempt_number] and calls again.  [None] is an
    exhausted fuel, not an outcome of the loop. *)
Fixpoint iter {A} (fuel : nat) (p : policy) (fn : Py A)
    (attempt_number : Z) (w : World) : option (result A * World) :=
  match fuel with
  | O => None
  | S fuel' =>
      match fn w with
      | (Ok a, w') => Some (Ok a, w')
      | (Raise e, w') =>
          if retry_on p e then
            if stop p attempt_number then Some (Raise (RetryError e), w')
            else iter fuel' p fn (attempt_number + 1)
                      (snd (sleep (wait p attempt_number) w'))
          else Some (Raise e, w')
      end
  end.

(** The decorator [@retry(stop=..., wait=..., retry=...)].  [fuel] bounds
    the loop; with [stop_after_attempt(n)] any fuel of at least [n] gives
    the same outcome, so the [None] branch is never taken by the decorated
    functions of this file (see [retry_fuel_enough] below). *)
Definition retry {A} (fuel : nat) (p : policy) (fn : Py A) : Py A :=
  fun w =>
    match iter fuel p fn 1 w with
    | Some r => r
    | None => (Raise (RetryError TypeError), w)
    end.

End tenacity.

(** The decorator arguments shared by the three decorated functions. *)
Definition transient_errors : list exn := [RateLimitError; APIConnectionError; Timeout].

Definition retry_policy : tenacity.policy := {|
  tenacity.stop := tenacity.stop_after_attempt 3;
  tenacity.wait := tenacity.wait_exponential 1 4 10;
  tenacity.retry_on := tenacity.retry_if_exception_type transient_errors;
|}.

Definition max_attempts : nat := 3.

(** ** Calling conventions *)

(** A call [f(..., **kw)] binds each keyword that names a declared parameter
    to that parameter; the callee's [**kwargs] receives the other keywords
    only. *)
Definition star_kwargs (params : list string) (kw : gmap string pyval)
    : gmap string pyval :=
  foldr delete kw params.

(** A call that passes a parameter explicitly and again through [**kw]
    raises [TypeError] (multiple values for the argument). *)
Definition passed_twice (explicit : list string) (kw : gmap string pyval) : bool :=
  existsb (fun name => bool_decide (is_Some (kw !! name))) explicit.

(** [dict(k1=v1, ..., **d1, **d2, ...)]: the keywords are collected from
    left to right, and a keyword met twice raises [TypeError]. *)
Definition dict_keyword (acc : result (gmap string pyval)) (kv : string * pyval)
    : result (gmap string pyval) :=
  match acc with
  | Ok m => if bool_decide (is_Some (m !! kv.1)) then Raise TypeError
            else Ok (<[kv.1 := kv.2]> m)
  | Raise e => Raise e
  end.

Definition dict_star (acc : result (gmap string pyval)) (d : gmap string pyval)
    : result (gmap string pyval) :=
  match acc with
  | Ok m => if bool_decide (m ##ₘ d) then Ok (m ∪ d) else Raise TypeError
  | Raise e => Raise e
  end.

Definition dict_call (keywords : list (string * pyval))
    (stars : list (gmap string pyval)) : result (gmap string pyval) :=
  foldl dict_star (foldl dict_keyword (Ok ∅) keywords) stars.

(** Iterating a value, as [list.extend] does. *)
Definition py_iter (v : pyval) : result (list pyval) :=
  match v with
  | PyList items => Ok items
  | PyDict items => Ok (map (fun kv => PyStr kv.1) items)
  | PyStr s => Ok (map (fun c => PyStr (String c EmptyString)) (String.list_ascii_of_string s))
  | _ => Raise TypeError
  end.

Definition lift {A} (r : result A) : Py A := fun w => (r, w).

(** [np.array(rows)] on a list of lists of floats: a matrix when the rows
    have one length, [ValueError] (inhomogeneous shape) when they do not. *)
Definition np_array (rows : list (list float)) : result (list (list float)) :=
  match rows with
  | [] => Ok []
  | first :: rest =>
      if forallb (fun row => Nat.eqb (length row) (length first)) rest
      then Ok rows
      else Raise ValueError
  end.

(** ** utils.locate_json_string_body_from_string *)

Fixpoint last_index_of (c : ascii) (s : string) (i : nat) (found : option nat)
    : option nat :=
  match s with
  | EmptyString => found
  | String a rest =>
      last_index_of c rest (S i) (if Ascii.eqb a c then Some i else found)
  end.

(** Modelled from the spec: [locate_json_string_body_from_string] lives in
    [utils.py], which is not part of the source at hand.  Per the spec it
    locates the JSON object embedded in a text and returns that substring:
    here, the text from the first opening brace to the last closing brace,
    and [None] when there is no such span. *)
Definition locate_json_string_body_from_string (content : pyval) : result pyval :=
  match content with
  | PyStr s =>
      match String.index 0 "{" s, last_index_of "}"%char s 0 None with
      | Some i, Some j =>
          if (i <=? j)%nat then Ok (PyStr (String.substring i (j - i + 1)%nat s))
          else Ok PyNone
      | _, _ => Ok PyNone
      end
  | _ => Raise TypeError
  end.

(** Modelled from the spec: [wrap_embedding_func_with_attrs] lives in
    [utils.py], which is not part of the source at hand.  It attaches the
    configured attributes to the function and delegates every call to it. *)
Record EmbeddingFunc : Type := {
  embedding_dim : Z;
  max_token_size : Z;
  func : list string -> pyval -> pyval -> pyval -> pyval -> Py (list (list float));
}.

Definition wrap_embedding_func_with_attrs (embedding_dim max_token_size : Z)
    (func : list string -> pyval -> pyval -> pyval -> pyval -> Py (list (list float)))
    : EmbeddingFunc :=
  {| embedding_dim := embedding_dim; max_token_size := max_token_size; func := func |}.

(** ** Async generators

    Calling an [async def] that contains [yield] runs none of its body: it
    returns a generator object.  The body runs when the generator is iterated;
    [agen_run] is that run, driven to its end by [async for]: the items
    yielded, the exception that ended the iteration (if any), and the world
    left behind. *)
Record AsyncGenerator (A : Type) : Type := {
  agen_run : World -> (list A * option exn) * World;
}.
Arguments agen_run {A} _ _.

(** [async for x in g: collect x] *)
Definition async_for {A} (g : AsyncGenerator A)
    : World -> (list A * option exn) * World :=
  agen_run g.

(** ** The Azure OpenAI adapters *)

Section Adapters.

Context (openai : Provider).

(** The call [create(model=model, messages=messages, **kwargs)].  An option
    of the caller named [model] or [messages] gives the keyword twice and
    raises [TypeError].  Otherwise the call is appended to [sent] and hands
    back a coroutine: the request and its sequence number, not yet sent. *)
Definition chat_create_call (client : AsyncAzureOpenAI) (model : pyval)
    (messages : list pyval) (kwargs : gmap string pyval)
    : Py (nat * request) :=
  fun w =>
    if passed_twice ["model"; "messages"] kwargs then (Raise TypeError, w)
    else
      let rq := {| req_client := client;
                   req_call := ChatCompletionsCreate model messages kwargs |} in
      (Ok (length (sent w), rq),
       {| environ := environ w; sent := sent w ++ [rq]; slept := slept w |}).

(** [await coroutine]: the provider's answer to the request. *)
Definition await_chat (coroutine : nat * request) : Py chat_response :=
  fun w => (chat_completions_create openai coroutine.1 coroutine.2, w).

(** [await create(...)], as line 75 has it. *)
Definition chat_create (client : AsyncAzureOpenAI) (model : pyval)
    (messages : list pyval) (kwargs : gmap string pyval) : Py chat_response :=
  do coroutine <- chat_create_call client model messages kwargs;
  await_chat coroutine.

Definition embed_create (client : AsyncAzureOpenAI) (model : pyval)
    (input : list string) (encoding_format : string) : Py (list Embedding) :=
  fun w =>
    let rq := {| req_client := client;
                 req_call := EmbeddingsCreate model input encoding_format |} in
    (embeddings_create openai (length (sent w)) rq,
     {| environ := environ w; sent := sent w ++ [rq]; slept := slept w |}).

(** The opening lines of all three functions: the overrides written to
    [os.environ], then the client built from [os.getenv]; the constructor
    raises when the SDK does not accept the settings. *)
Definition azure_client (base_url api_key api_version : pyval)
    : Py AsyncAzureOpenAI :=
  run (if truthy api_key
       then os_environ_set "AZURE_OPENAI_API_KEY" api_key else ret tt);
  run (if truthy base_url
       then os_environ_set "AZURE_OPENAI_ENDPOINT" base_url else ret tt);
  run (if truthy api_version
       then os_environ_set "AZURE_OPENAI_API_VERSION" api_version else ret tt);
  do endpoint <- os_getenv "AZURE_OPENAI_ENDPOINT";
  do key <- os_getenv "AZURE_OPENAI_API_KEY";
  do version <- os_getenv "AZURE_OPENAI_API_VERSION";
  let client := {| client_azure_endpoint := endpoint;
                   client_api_key := key;
                   client_api_version := version |} in
  fun w =>
    match new_client openai (environ w) client with
    | Some e => (Raise e, w)
    | None => (Ok client, w)
    end.

(** The message list: [system turn?] + history + [user turn?]. *)
Definition build_messages (prompt system_prompt history_messages : pyval)
    : result (list pyval) :=
  let messages :=
    if truthy system_prompt
    then [PyDict [("role", PyStr "system"); ("content", system_prompt)]]
    else [] in
  match py_iter history_messages with
  | Raise e => Raise e
  | Ok history =>
      let messages := messages ++ history in
      Ok (match prompt with
          | PyNone => messages
          | _ => messages ++ [PyDict [("role", PyStr "user"); ("content", prompt)]]
          end)
  end.

(** The undecorated body of [azure_openai_complete_if_cache]. *)
Definition azure_openai_complete_if_cache_body
    (model prompt system_prompt history_messages : pyval)
    (base_url api_key api_version : pyval)
    (kwargs : gmap string pyval) : Py pyval :=
  do openai_async_client <- azure_client base_url api_key api_version;
  let kwargs := delete "hashing_kv" kwargs in
  do messages <- lift (build_messages prompt system_prompt history_messages);
  do response <- chat_create openai_async_client model messages kwargs;
  match response with
  | Completion (choice :: _) => ret (message_content choice)
  | Completion [] => raise IndexError
  | Stream _ _ => raise AttributeError
  end.

Definition azure_openai_complete_if_cache
    (model prompt system_prompt history_messages : pyval)
    (base_url api_key api_version : pyval)
    (kwargs : gmap string pyval) : Py pyval :=
  tenacity.retry max_attempts retry_policy
    (azure_openai_complete_if_cache_body model prompt system_prompt
       history_messages base_url api_key api_version kwargs).

(** [azure_openai_complete(prompt, **kw)].  The first four lines are the
    binding of the call against the signature
    [(prompt, system_prompt=None, history_messages=[],
      keyword_extraction=False, **kwargs)]; the rest is the body. *)
Definition azure_openai_complete (prompt : pyval) (kw : gmap string pyval)
    : Py pyval :=
  let system_prompt := default PyNone (kw !! "system_prompt") in
  let history_messages := default (PyList []) (kw !! "history_messages") in
  let keyword_extraction := default (PyBool false) (kw !! "keyword_extraction") in
  let kwargs :=
    star_kwargs ["prompt"; "system_prompt"; "history_messages";
                 "keyword_extraction"] kw in
  let keyword_extraction := default PyNone (kwargs !! "keyword_extraction") in
  let kwargs := delete "keyword_extraction" kwargs in
  do result <-
    (if passed_twice ["model"; "prompt"; "system_prompt"; "history_messages"] kwargs
     then raise TypeError
     else azure_openai_complete_if_cache (PyStr "gpt-4o") prompt
            system_prompt history_messages
            (default PyNone (kwargs !! "base_url"))
            (default PyNone (kwargs !! "api_key"))
            (default PyNone (kwargs !! "api_version"))
            (star_kwargs ["base_url"; "api_key"; "api_version"] kwargs));
  if truthy keyword_extraction
  then lift (locate_json_string_body_from_string result)
  else ret result.

(** The undecorated body of [azure_openai_embedding]. *)
Definition azure_openai_embedding_body (texts : list string)
    (model base_url api_key api_version : pyval) : Py (list (list float)) :=
  do openai_async_client <- azure_client base_url api_key api_version;
  do data <- embed_create openai_async_client model texts "float";
  lift (np_array (map embedding data)).

Definition azure_openai_embedding : EmbeddingFunc :=
  wrap_embedding_func_with_attrs 1536 8191
    (fun texts model base_url api_key api_version =>
       tenacity.retry max_attempts retry_policy
         (azure_openai_embedding_body texts model base_url api_key api_version)).

(** The body of [azure_openai_complete_if_cache_stream], run when the
    generator is iterated.  Line 179 calls [create] and does not await it:
    what [async for] is given is the coroutine, which is not an async
    iterable, so the statement raises [TypeError] before the loop body is
    entered and before the provider is contacted. *)
Definition azure_openai_complete_if_cache_stream_body
    (model prompt system_prompt history_messages : pyval)
    (base_url api_key api_version : pyval)
    (kwargs : gmap string pyval) : World -> (list pyval * option exn) * World :=
  fun w =>
    let open :=
      do openai_async_client <- azure_client base_url api_key api_version;
      let kwargs := delete "hashing_kv" kwargs in
      do messages <- lift (build_messages prompt system_prompt history_messages);
      let kwargs := <["stream" := PyBool true]> kwargs in
      chat_create_call openai_async_client model messages kwargs in
    match open w with
    | (Raise e, w') => (([], Some e), w')
    | (Ok coroutine, w') => (([], Some TypeError), w')
    end.

(** The decorated streaming function.  It is an async generator function,
    so what [retry] wraps is the call that builds the generator object. *)
Definition azure_openai_complete_if_cache_stream
    (model prompt system_prompt history_messages : pyval)
    (base_url api_key api_version : pyval)
    (kwargs : gmap string pyval) : Py (AsyncGenerator pyval) :=
  tenacity.retry max_attempts retry_policy
    (ret {| agen_run :=
              azure_openai_complete_if_cache_stream_body model prompt
                system_prompt history_messages base_url api_key api_version
                kwargs |}).

(** [async for fragment in azure_openai_complete_if_cache_stream(...)]:
    the call, then the iteration of what it returned. *)
Definition stream_call
    (model prompt system_prompt history_messages : pyval)
    (base_url api_key api_version : pyval)
    (kwargs : gmap string pyval) : World -> (list pyval * option exn) * World :=
  fun w =>
    match azure_openai_complete_if_cache_stream model prompt system_prompt
            history_messages base_url api_key api_version kwargs w with
    | (Ok g, w') => async_for g w'
    | (Raise e, w') => (([], Some e), w')
    end.

End Adapters.

(** ** The streaming counterpart of [azure_openai_complete] *)

Section StreamingCompletion.

Context (openai : Provider).

(** [azure_openai_complete_stream(prompt, **kw)]: an async generator that
    re-yields every token of the underlying stream.  The first four lines of
    the run are the binding of the call against the signature
    [(prompt, system_prompt=None, history_messages=[],
      keyword_extraction=False, **kwargs)]; nothing in the body reads
    [keyword_extraction]. *)
Definition azure_openai_complete_stream (prompt : pyval)
    (kw : gmap string pyval) : AsyncGenerator pyval :=
  {| agen_run := fun w =>
       let system_prompt := default PyNone (kw !! "system_prompt") in
       let history_messages := default (PyList []) (kw !! "history_messages") in
       let keyword_extraction :=
         default (PyBool false) (kw !! "keyword_extraction") in
       let kwargs :=
         star_kwargs ["prompt"; "system_prompt"; "history_messages";
                      "keyword_extraction"] kw in
       if passed_twice ["model"; "prompt"; "system_prompt"; "history_messages"]
            kwargs
       then (([], Some TypeError), w)
       else stream_call openai (PyStr "gpt-4o") prompt system_prompt
              history_messages
              (default PyNone (kwargs !! "base_url"))
              (default PyNone (kwargs !! "api_key"))
              (default PyNone (kwargs !! "api_version"))
              (star_kwargs ["base_url"; "api_key"; "api_version"] kwargs) w |}.

End StreamingCompletion.

(** ** An adapter called with keyword arguments only *)

(** [azure_openai_complete_if_cache] called with the dictionary [args]
    unpacked as keywords, the way a dispatcher calls the generation function
    of a descriptor: [model] and [prompt] are required,
    the other declared parameters take their defaults when absent, and the
    remaining keywords are the provider options. *)
Definition complete_if_cache_with_keywords (openai : Provider)
    (args : gmap string pyval) : Py pyval :=
  match args !! "model", args !! "prompt" with
  | Some model, Some prompt =>
      azure_openai_complete_if_cache openai model prompt
        (default PyNone (args !! "system_prompt"))
        (default (PyList []) (args !! "history_messages"))
        (default PyNone (args !! "base_url"))
        (default PyNone (args !! "api_key"))
        (default PyNone (args !! "api_version"))
        (star_kwargs ["model"; "prompt"; "system_prompt"; "history_messages";
                      "base_url"; "api_key"; "api_version"] args)
  | _, _ => raise TypeError
  end.

(** ** Model and MultiModel *)

Module Model.

(** A generation function is called with keyword arguments only. *)
Record t : Type := {
  gen_func : gmap string pyval -> Py pyval;
  kwargs : gmap string pyval;
}.

End Model.

Module MultiModel.

Record t : Type := {
  _models : list Model.t;
  _current_model : Z;
}.

Definition __init__ (models : list Model.t) : t :=
  {| _models := models; _current_model := 0 |}.

(** [%] by a zero length raises before the assignment takes place. *)
Definition _next_model (self : t) : result Model.t * t :=
  let len := Z.of_nat (length (_models self)) in
  if Z.eqb len 0 then (Raise ZeroDivisionError, self)
  else
    let self := {| _models := _models self;
                   _current_model := (_current_model self + 1) mod len |} in
    match _models self !! Z.to_nat (_current_model self) with
    | Some m => (Ok m, self)
    | None => (Raise IndexError, self)
    end.

(** What one dispatch leaves behind: the dispatcher, the generation
    functions it invoked with their keyword arguments (none or one), what
    the caller gets, and the world. *)
Record outcome : Type := {
  self_after : t;
  invoked : list (Model.t * gmap string pyval);
  returned : result pyval;
  world_after : World;
}.

(** [self.llm_model_func(prompt, **kw)], with [kw] the keywords of the call
    other than [prompt].  The first three lines are the binding of the call
    against the signature
    [(self, prompt, system_prompt=None, history_messages=[], **kwargs)]. *)
Definition llm_model_func (self : t) (prompt : pyval)
    (kw : gmap string pyval) (w : World) : outcome :=
  let system_prompt := default PyNone (kw !! "system_prompt") in
  let history_messages := default (PyList []) (kw !! "history_messages") in
  let kwargs := star_kwargs ["prompt"; "system_prompt"; "history_messages"] kw in
  let kwargs := delete "model" kwargs in
  let kwargs := delete "keyword_extraction" kwargs in
  let kwargs := delete "mode" kwargs in
  match _next_model self with
  | (Raise e, self) =>
      {| self_after := self; invoked := []; returned := Raise e;
         world_after := w |}
  | (Ok next_model, self) =>
      match dict_call [("prompt", prompt); ("system_prompt", system_prompt);
                       ("history_messages", history_messages)]
                      [kwargs; Model.kwargs next_model] with
      | Raise e =>
          {| self_after := self; invoked := []; returned := Raise e;
             world_after := w |}
      | Ok args =>
          let (r, w') := Model.gen_func next_model args w in
          {| self_after := self; invoked := [(next_model, args)];
             returned := r; world_after := w' |}
      end
  end.

(** Sequential calls on one dispatcher: each call starts from the
    dispatcher and the world the previous one left. *)
Fixpoint calls (self : t) (w : World) (inputs : list (pyval * gmap string pyval))
    : list outcome :=
  match inputs with
  | [] => []
  | (prompt, kw) :: rest =>
      let o := llm_model_func self prompt kw w in
      o :: calls (self_after o) (world_after o) rest
  end.

End MultiModel.

(** ** Notions used in the statements *)

(** The keys [llm_model_func] pops from the caller's options. *)
Definition reserved_keys : list string := ["model"; "keyword_extraction"; "mode"].

(** The caller's options that remain after the three pops. *)
Definition remaining_options (kw : gmap string pyval) : gmap string pyval :=
  delete "mode" (delete "keyword_extraction" (delete "model"
    (star_kwargs ["prompt"; "system_prompt"; "history_messages"] kw))).

(** The three keywords [llm_model_func] always passes. *)
Definition named_arguments (prompt : pyval) (kw : gmap string pyval)
    : gmap string pyval :=
  <["history_messages" := default (PyList []) (kw !! "history_messages")]>
    (<["system_prompt" := default PyNone (kw !! "system_prompt")]>
       (<["prompt" := prompt]> ∅)).

(** Everything the caller's side contributes to the merged arguments. *)
Definition caller_arguments (prompt : pyval) (kw : gmap string pyval)
    : gmap string pyval :=
  named_arguments prompt kw ∪ remaining_options kw.

Definition is_transient (e : exn) : Prop :=
  e = RateLimitError \/ e = APIConnectionError \/ e = Timeout.

(** An argument annotated [str = None]: a string, or [None]. *)
Definition str_or_none (v : pyval) : Prop := v = PyNone \/ exists s, v = PyStr s.

(** What [if value: os.environ[name] = value] does to the environment. *)
Definition override (name : string) (value : pyval) (env : gmap string string)
    : gmap string string :=
  match value with
  | PyStr s => if truthy value then <[name := s]> env else env
  | _ => env
  end.

Definition azure_environ (base_url api_key api_version : pyval)
    (env : gmap string string) : gmap string string :=
  override "AZURE_OPENAI_API_VERSION" api_version
    (override "AZURE_OPENAI_ENDPOINT" base_url
       (override "AZURE_OPENAI_API_KEY" api_key env)).

(** The client whose three settings are read from an environment. *)
Definition client_of_environ (env : gmap string string) : AsyncAzureOpenAI :=
  {| client_azure_endpoint := env !! "AZURE_OPENAI_ENDPOINT";
     client_api_key := env !! "AZURE_OPENAI_API_KEY";
     client_api_version := env !! "AZURE_OPENAI_API_VERSION" |}.

(** The SDK's constructor accepts the client the call builds from world
    [w], that is, after the overrides. *)
Definition client_accepted (openai : Provider)
    (base_url api_key api_version : pyval) (w : World) : Prop :=
  new_client openai
    (azure_environ base_url api_key api_version (environ w))
    (client_of_environ (azure_environ base_url api_key api_version (environ w)))
  = None.

(** The three configuration variables with the argument that overrides each. *)
Definition overrides (base_url api_key api_version : pyval)
    : list (string * pyval) :=
  [("AZURE_OPENAI_API_KEY", api_key);
   ("AZURE_OPENAI_ENDPOINT", base_url);
   ("AZURE_OPENAI_API_VERSION", api_version)].

(** The effect of one call on the environment, from world [w] to world [w']:
    a variable whose argument is a non-empty string holds that string
    afterwards; a variable whose argument is absent ([None], or empty) is as
    before; no other variable changes; and every request the call sent was
    built from a client that reads the three settings from the environment
    the call leaves behind. *)
Definition environment_effect (base_url api_key api_version : pyval)
    (w w' : World) : Prop :=
  (forall name value,
      (name, value) ∈ overrides base_url api_key api_version ->
      (forall s, value = PyStr s -> s <> EmptyString ->
                 environ w' !! name = Some s)
      /\ (value = PyNone \/ value = PyStr EmptyString ->
          environ w' !! name = environ w !! name))
  /\ (forall name,
        name ∉ (overrides base_url api_key api_version).*1 ->
        environ w' !! name = environ w !! name)
  /\ (exists new,
        sent w' = sent w ++ new
        /\ Forall (fun rq => req_client rq = client_of_environ (environ w')) new).

(** Requests [new] were sent after [w0], all of them by a client that reads
    its settings from [env]. *)
Definition sent_since (env : gmap string string) (w0 w1 : World) : Prop :=
  exists new,
    sent w1 = sent w0 ++ new
    /\ Forall (fun rq => req_client rq = client_of_environ env) new.

(** The request a chat call sends from world [w]. *)
Definition chat_request (model : pyval) (messages : list pyval)
    (base_url api_key api_version : pyval) (kwargs : gmap string pyval)
    (w : World) : request :=
  {| req_client :=
       client_of_environ (azure_environ base_url api_key api_version (environ w));
     req_call := ChatCompletionsCreate model messages kwargs |}.

(** The request an embedding call sends from world [w]. *)
Definition embedding_request (texts : list string)
    (model base_url api_key api_version : pyval) (w : World) : request :=
  {| req_client :=
       client_of_environ (azure_environ base_url api_key api_version (environ w));
     req_call := EmbeddingsCreate model texts "float" |}.

(** The world after the overrides and one more request. *)
Definition after_request (base_url api_key api_version : pyval) (rq : request)
    (w : World) : World :=
  {| environ := azure_environ base_url api_key api_version (environ w);
     sent := sent w ++ [rq];
     slept := slept w |}.

(** ** Concrete instances used in the examples *)

Module Examples.

Definition w0 : World := {| environ := ∅; sent := []; slept := [] |}.

(** A process whose environment holds the three Azure settings. *)
Definition configured : World :=
  {| environ := {[ "AZURE_OPENAI_API_KEY" := "KEY";
                   "AZURE_OPENAI_ENDPOINT" := "https://example.openai.azure.com";
                   "AZURE_OPENAI_API_VERSION" := "2024-02-01" ]};
     sent := []; slept := [] |}.

(** The checks of the SDK's constructor: a credential, an API version and
    an endpoint must come from its arguments or from the environment. *)
Definition sdk_new_client (env : gmap string string) (client : AsyncAzureOpenAI)
    : option exn :=
  match client_api_key client, env !! "AZURE_OPENAI_AD_TOKEN" with
  | None, None => Some OpenAIError
  | _, _ =>
      match client_api_version client, env !! "OPENAI_API_VERSION" with
      | None, None => Some ValueError
      | _, _ =>
          match client_azure_endpoint client with
          | None => Some ValueError
          | Some _ => None
          end
      end
  end.

(** A generation function that answers with a fixed text. *)
Definition answer (text : string) : gmap string pyval -> Py pyval :=
  fun _ => ret (PyStr text).

Definition key0 : Model.t :=
  {| Model.gen_func := answer "from descriptor 0";
     Model.kwargs := {[ "api_key" := PyStr "KEY_0" ]} |}.
Definition key1 : Model.t :=
  {| Model.gen_func := answer "from descriptor 1";
     Model.kwargs := {[ "api_key" := PyStr "KEY_1" ]} |}.
Definition key2 : Model.t :=
  {| Model.gen_func := answer "from descriptor 2";
     Model.kwargs := {[ "api_key" := PyStr "KEY_2" ]} |}.

(** The descriptor of the class docstring: it fixes [model]. *)
Definition gpt4 : Model.t :=
  {| Model.gen_func := answer "ok";
     Model.kwargs := {[ "model" := PyStr "gpt-4" ]} |}.

Definition cold : Model.t :=
  {| Model.gen_func := answer "ok";
     Model.kwargs := {[ "temperature" := PyInt 0 ]} |}.

Definition hello : pyval := PyStr "hello".

(** A provider that is rate limited on every request. *)
Definition rate_limited : Provider :=
  {| new_client := sdk_new_client;
     chat_completions_create := fun _ _ => Raise RateLimitError;
     embeddings_create := fun _ _ => Raise RateLimitError |}.

(** A provider that rejects every request (HTTP 401). *)
Definition unauthorized : Provider :=
  {| new_client := sdk_new_client;
     chat_completions_create := fun _ _ => Raise (ProviderError 401);
     embeddings_create := fun _ _ => Raise (ProviderError 401) |}.

Definition terms_text : string := "Here are the terms: {high: [a], low: [b]}".

(** A provider that completes every chat request with [terms_text] and
    embeds every text as a vector of the width of the model asked for. *)
Definition width_of (model : pyval) : nat :=
  match model with
  | PyStr "text-embedding-3-large" => 3072
  | _ => 1536
  end.

Definition helpful : Provider :=
  {| new_client := sdk_new_client;
     chat_completions_create := fun _ _ =>
       Ok (Completion [{| message_content := PyStr terms_text |}]);
     embeddings_create := fun _ rq =>
       match req_call rq with
       | EmbeddingsCreate model input _ =>
           Ok (map (fun _ => {| embedding := repeat 0%float (width_of model) |}) input)
       | _ => Raise (ProviderError 400)
       end |}.

Definition chunk_of (d : gmap string pyval) : ChatCompletionChunk :=
  {| chunk_choices := [{| delta := d |}] |}.

(** The stream of the spec's example, with a role-only delta in front. *)
Definition hello_world_chunks : list ChatCompletionChunk :=
  [chunk_of {[ "role" := PyStr "assistant" ]};
   chunk_of {[ "content" := PyStr "Hel" ]};
   chunk_of {[ "content" := PyStr "lo" ]};
   chunk_of {[ "content" := PyStr " world" ]};
   chunk_of ∅].

Definition streaming (chunks : list ChatCompletionChunk) : Provider :=
  {| new_client := sdk_new_client;
     chat_completions_create := fun _ _ => Ok (Stream chunks None);
     embeddings_create := fun _ _ => Raise (ProviderError 400) |}.

(** A provider that answers request number [n] of the process by the n-th
    entry of a script, and is unreachable once the script is over. *)
Definition scripted (script : list (result chat_response)) : Provider :=
  {| new_client := sdk_new_client;
     chat_completions_create := fun n _ =>
       default (Raise APIConnectionError) (script !! n);
     embeddings_create := fun _ _ => Raise (ProviderError 400) |}.

Definition greeting : chat_response :=
  Completion [{| message_content := PyStr "Hi there" |};
              {| message_content := PyStr "second choice" |}].

(** Descriptors in the style of the class docstring: the same adapter, one
    key each. *)
Definition azure_with_key (key : string) : Model.t :=
  {| Model.gen_func := complete_if_cache_with_keywords helpful;
     Model.kwargs := {[ "model" := PyStr "gpt-4o"; "api_key" := PyStr key ]} |}.

End Examples.

(** * Properties *)

(** ** The cursor *)

Section Cursor.

Import MultiModel.

Lemma next_model_nonempty (self : t) :
  _models self <> [] ->
  exists m,
    _next_model self =
      (Ok m, {| _models := _models self;
                _current_model :=
                  (_current_model self + 1) mod Z.of_nat (length (_models self)) |})
    /\ _models self
         !! Z.to_nat ((_current_model self + 1) mod Z.of_nat (length (_models self)))
       = Some m.
Proof.
  intros Hne. unfold _next_model.
  assert (Hlen : 0 < Z.of_nat (length (_models self))).
  { destruct (_models self); [congruence | simpl; lia]. }
  destruct (Z.eqb_spec (Z.of_nat (length (_models self))) 0) as [E | _]; [lia |].
  cbn [_models _current_model].
  pose proof (Z.mod_pos_bound (_current_model self + 1) _ Hlen) as Hb.
  destruct (lookup_lt_is_Some_2 (_models self)
              (Z.to_nat ((_current_model self + 1) mod Z.of_nat (length (_models self)))))
    as [m Hm]; [lia |].
  exists m. rewrite Hm. split; reflexivity.
Qed.

Lemma next_model_empty (self : t) :
  _models self = [] -> _next_model self = (Raise ZeroDivisionError, self).
Proof. intros E. unfold _next_model. rewrite E. reflexivity. Qed.

(** The dispatcher a call leaves behind is the one [_next_model] left:
    nothing after it touches [self]. *)
Lemma llm_model_func_self (self : t) prompt kw w :
  self_after (llm_model_func self prompt kw w) = (_next_model self).2.
Proof.
  unfold llm_model_func.
  destruct (_next_model self) as [[m | e] self']; cbn [snd]; [| reflexivity].
  destruct (dict_call _ _); [| reflexivity].
  destruct (Model.gen_func m a w). reflexivity.
Qed.

End Cursor.

(** ** The merged keyword arguments *)

Section Merge.

Import MultiModel.

Lemma dict_keyword_fresh (m : gmap string pyval) k v :
  m !! k = None -> dict_keyword (Ok m) (k, v) = Ok (<[k := v]> m).
Proof.
  intros Hk. unfold dict_keyword. cbn [fst snd].
  rewrite bool_decide_eq_false_2; [reflexivity |].
  rewrite Hk. intros [x Hx]. discriminate.
Qed.

Lemma remaining_options_named (kw : gmap string pyval) k :
  k ∈ ["prompt"; "system_prompt"; "history_messages"] ->
  remaining_options kw !! k = None.
Proof.
  intros Hk. unfold remaining_options, star_kwargs. cbn [foldr].
  repeat (apply elem_of_cons in Hk as [-> | Hk]);
    [| | | by apply elem_of_nil in Hk];
    repeat first [ apply lookup_delete_eq
                 | rewrite lookup_delete_ne by discriminate ].
Qed.

Lemma remaining_options_reserved (kw : gmap string pyval) k :
  k ∈ reserved_keys -> remaining_options kw !! k = None.
Proof.
  intros Hk. unfold remaining_options, reserved_keys in *.
  repeat (apply elem_of_cons in Hk as [-> | Hk]);
    [| | | by apply elem_of_nil in Hk];
    repeat first [ apply lookup_delete_eq
                 | rewrite lookup_delete_ne by discriminate ].
Qed.

Lemma named_arguments_lookup prompt (kw : gmap string pyval) k :
  is_Some (named_arguments prompt kw !! k) <->
  k ∈ ["prompt"; "system_prompt"; "history_messages"].
Proof.
  unfold named_arguments. rewrite !lookup_insert_is_Some, lookup_empty.
  rewrite !elem_of_cons, elem_of_nil. split.
  - intros [<- | [_ [<- | [_ [<- | [_ [x Hx]]]]]]]; auto. discriminate.
  - intros [-> | [-> | [-> | []]]].
    + right. split; [discriminate |]. right. split; [discriminate |]. by left.
    + right. split; [discriminate |]. by left.
    + by left.
Qed.

Lemma named_remaining_disjoint prompt (kw : gmap string pyval) :
  named_arguments prompt kw ##ₘ remaining_options kw.
Proof.
  apply map_disjoint_alt. intros k.
  destruct (named_arguments prompt kw !! k) eqn:E; [right | by left].
  apply remaining_options_named.
  apply (named_arguments_lookup prompt kw k). by rewrite E.
Qed.

Lemma caller_arguments_reserved prompt (kw : gmap string pyval) k :
  k ∈ reserved_keys -> caller_arguments prompt kw !! k = None.
Proof.
  intros Hk. unfold caller_arguments. apply lookup_union_None. split.
  - apply eq_None_not_Some. intros Hs%named_arguments_lookup.
    unfold reserved_keys in Hk.
    repeat (apply elem_of_cons in Hk as [-> | Hk]);
      [| | | by apply elem_of_nil in Hk];
      repeat (apply elem_of_cons in Hs as [Hs | Hs]; [discriminate |]);
      by apply elem_of_nil in Hs.
  - by apply remaining_options_reserved.
Qed.

(** The [dict(...)] call of [llm_model_func]: it succeeds exactly when the
    descriptor's keys are disjoint from the caller's side. *)
Lemma dict_call_merge prompt (kw d : gmap string pyval) :
  dict_call [("prompt", prompt);
             ("system_prompt", default PyNone (kw !! "system_prompt"));
             ("history_messages", default (PyList []) (kw !! "history_messages"))]
            [remaining_options kw; d]
  = if bool_decide (caller_arguments prompt kw ##ₘ d)
    then Ok (caller_arguments prompt kw ∪ d)
    else Raise TypeError.
Proof.
  unfold dict_call. cbn [foldl].
  rewrite dict_keyword_fresh by apply lookup_empty.
  rewrite dict_keyword_fresh by (by rewrite lookup_insert_ne by discriminate).
  rewrite dict_keyword_fresh by (by rewrite !lookup_insert_ne by discriminate).
  change (<["history_messages" := _]> _) with (named_arguments prompt kw).
  unfold dict_star at 2.
  rewrite bool_decide_eq_true_2 by apply named_remaining_disjoint.
  reflexivity.
Qed.

Lemma llm_model_func_selected (self self' : t) (m : Model.t) prompt kw w :
  _next_model self = (Ok m, self') ->
  llm_model_func self prompt kw w =
    if bool_decide (caller_arguments prompt kw ##ₘ Model.kwargs m)
    then {| self_after := self';
            invoked := [(m, caller_arguments prompt kw ∪ Model.kwargs m)];
            returned :=
              (Model.gen_func m (caller_arguments prompt kw ∪ Model.kwargs m) w).1;
            world_after :=
              (Model.gen_func m (caller_arguments prompt kw ∪ Model.kwargs m) w).2 |}
    else {| self_after := self'; invoked := []; returned := Raise TypeError;
            world_after := w |}.
Proof.
  intros Hnext. unfold llm_model_func. rewrite Hnext.
  change (delete "mode" _) with (remaining_options kw).
  rewrite dict_call_merge.
  destruct (bool_decide _); [| reflexivity].
  destruct (Model.gen_func m _ w). reflexivity.
Qed.

End Merge.

(** ** Round robin *)

Section RoundRobin.

Import MultiModel.

Lemma llm_model_func_cursor (self : t) prompt kw w :
  _models self <> [] ->
  _models (self_after (llm_model_func self prompt kw w)) = _models self
  /\ _current_model (self_after (llm_model_func self prompt kw w))
     = (_current_model self + 1) mod Z.of_nat (length (_models self)).
Proof.
  intros Hne. rewrite llm_model_func_self.
  destruct (next_model_nonempty self Hne) as (m & -> & _). by split.
Qed.

(** C7.  For a dispatcher with at least one descriptor, every call to
    [llm_model_func] leaves the descriptor list as it was and moves the
    cursor to [(cursor + 1) mod M], whatever the caller passes and whatever
    the generation function does (return or raise); the new cursor lies in
    [0, M), and so does the cursor of a freshly built dispatcher. *)
Theorem cursor_advances_by_one (self : t) prompt kw w :
  _models self <> [] ->
  let M := Z.of_nat (length (_models self)) in
  let o := llm_model_func self prompt kw w in
  _models (self_after o) = _models self
  /\ _current_model (self_after o) = (_current_model self + 1) mod M
  /\ 0 <= _current_model (self_after o) < M
  /\ 0 <= _current_model (__init__ (_models self)) < M.
Proof.
  intros Hne M o. subst o.
  destruct (llm_model_func_cursor self prompt kw w Hne) as [Hm Hc].
  assert (0 < M) by (subst M; destruct (_models self); [congruence | simpl; lia]).
  split; [exact Hm |]. split; [exact Hc |]. split.
  - rewrite Hc. apply Z.mod_pos_bound; assumption.
  - cbn [__init__ _current_model]. lia.
Qed.

Lemma cursor_advances_by_one_witness :
  _models (__init__ [Examples.key0; Examples.key1]) <> []
  /\ _current_model
       (self_after (llm_model_func (__init__ [Examples.key0; Examples.key1])
                      Examples.hello ∅ Examples.w0)) = 1.
Proof.
  split; [discriminate |].
  apply (cursor_advances_by_one (__init__ [Examples.key0; Examples.key1])
           Examples.hello ∅ Examples.w0). discriminate.
Defined.

(** C10.  A dispatcher is built from an empty list without complaint, and
    then every call raises [ZeroDivisionError]: no generation function is
    invoked, and the dispatcher and the world are left as they were. *)
Theorem empty_dispatcher_always_fails prompt kw w :
  _models (__init__ []) = []
  /\ (let o := llm_model_func (__init__ []) prompt kw w in
      returned o = Raise ZeroDivisionError
      /\ invoked o = []
      /\ self_after o = __init__ []
      /\ world_after o = w)
  /\ (forall inputs o,
        o ∈ calls (__init__ []) w inputs ->
        returned o = Raise ZeroDivisionError /\ invoked o = []).
Proof.
  split; [reflexivity |]. split; [repeat split |].
  intros inputs. generalize w. induction inputs as [| [p k] rest IH]; intros w1 o Ho.
  - by apply elem_of_nil in Ho.
  - cbn [calls] in Ho. apply elem_of_cons in Ho as [-> | Ho]; [by split |].
    exact (IH _ _ Ho).
Qed.

(** The k-th outcome of a run (k from 0) is a call made on a dispatcher with
    the same descriptors whose next cursor is [(cursor + k + 1) mod M]. *)
Lemma calls_lookup inputs :
  forall (self : t) w k o,
    _models self <> [] ->
    calls self w inputs !! k = Some o ->
    exists self_k w_k p kw,
      inputs !! k = Some (p, kw)
      /\ o = llm_model_func self_k p kw w_k
      /\ _models self_k = _models self
      /\ (_current_model self_k + 1) mod Z.of_nat (length (_models self))
         = (_current_model self + Z.of_nat (S k)) mod Z.of_nat (length (_models self)).
Proof.
  induction inputs as [| [p kw] rest IH]; intros self w k o Hne Hk.
  - destruct k; discriminate.
  - destruct k as [| k]; cbn [calls] in Hk.
    + injection Hk as <-. exists self, w, p, kw. repeat split.
    + cbn [lookup list_lookup] in Hk.
      destruct (llm_model_func_cursor self p kw w Hne) as (Hm & Hc).
      apply IH in Hk as (self_k & w_k & p' & kw' & Hin & Ho & Hmk & Hck);
        [| rewrite Hm; exact Hne].
      exists self_k, w_k, p', kw'. repeat split; try assumption.
      * congruence.
      * rewrite Hm, Hc in Hck. rewrite Hck.
        rewrite Zplus_mod_idemp_l. f_equal. lia.
Qed.

(** C1 (as the code has it).  In a run of sequential calls on a freshly
    built dispatcher with M >= 1 descriptors, the call number k (k from 1)
    selects the descriptor at index [k mod M]: the first call goes to index
    1, not 0.  That descriptor's generation function is the one invoked,
    with the merged arguments, unless the merge itself fails. *)
Theorem kth_call_selects_k_mod_M (models : list Model.t) inputs w
    (k : nat) (o : outcome) p kw :
  models <> [] ->
  inputs !! k = Some (p, kw) ->
  calls (__init__ models) w inputs !! k = Some o ->
  exists m,
    models !! (S k mod length models)%nat = Some m
    /\ invoked o =
         if bool_decide (caller_arguments p kw ##ₘ Model.kwargs m)
         then [(m, caller_arguments p kw ∪ Model.kwargs m)]
         else [].
Proof.
  intros Hne Hin Hk.
  apply calls_lookup in Hk as (self_k & w_k & p' & kw' & Hin' & -> & Hmk & Hck);
    [| exact Hne].
  rewrite Hin in Hin'. injection Hin' as <- <-.
  cbn [__init__ _models _current_model] in Hmk, Hck.
  assert (Hne' : _models self_k <> []) by (rewrite Hmk; exact Hne).
  destruct (next_model_nonempty self_k Hne') as (m & Hnext & Hm).
  exists m. split.
  - rewrite Hmk, Hck in Hm. rewrite Z.add_0_l in Hm.
    rewrite <- Nat2Z.inj_mod, Nat2Z.id in Hm. exact Hm.
  - rewrite (llm_model_func_selected _ _ _ _ _ _ Hnext).
    destruct (bool_decide _); reflexivity.
Qed.

Lemma kth_call_selects_k_mod_M_witness :
  [Examples.key0; Examples.key1; Examples.key2] <> []
  /\ [(Examples.hello, ∅); (Examples.hello, ∅); (Examples.hello, ∅)] !! 2%nat
     = Some (Examples.hello, (∅ : gmap string pyval))
  /\ exists m,
       [Examples.key0; Examples.key1; Examples.key2] !! (3 mod 3)%nat = Some m
       /\ invoked
            (llm_model_func
               {| _models := [Examples.key0; Examples.key1; Examples.key2];
                  _current_model := 2 |}
               Examples.hello ∅ Examples.w0)
          = if bool_decide (caller_arguments Examples.hello ∅ ##ₘ Model.kwargs m)
            then [(m, caller_arguments Examples.hello ∅ ∪ Model.kwargs m)]
            else [].
Proof.
  split; [discriminate |]. split; [reflexivity |].
  apply (kth_call_selects_k_mod_M
           [Examples.key0; Examples.key1; Examples.key2]
           [(Examples.hello, ∅); (Examples.hello, ∅); (Examples.hello, ∅)]
           Examples.w0 2%nat _ Examples.hello ∅);
    [discriminate | reflexivity | reflexivity].
Defined.

(** C1 as stated fails: with two descriptors the first call does not go to
    descriptor 0. *)
Lemma first_call_skips_descriptor_0 :
  ~ (forall (k : nat) (o : outcome),
       calls (__init__ [Examples.key0; Examples.key1]) Examples.w0
             [(Examples.hello, ∅); (Examples.hello, ∅)] !! k = Some o ->
       exists m args,
         [Examples.key0; Examples.key1] !! (k mod 2)%nat = Some m
         /\ invoked o = [(m, args)]).
Proof.
  intros H.
  destruct (H 0%nat _ eq_refl) as (m & args & Hm & Hinv).
  injection Hm as <-.
  apply (f_equal (fmap (fun x => Model.kwargs x.1 !! "api_key"))) in Hinv.
  vm_compute in Hinv. discriminate.
Qed.

End RoundRobin.

(** ** Key collisions and reserved keys *)

Section Collisions.

Import MultiModel.

(** C2 (as the code has it).  With [m] the selected descriptor:
    - a key set both by [m]'s fixed arguments and by the caller's side (the
      remaining options, or one of the three named arguments) makes the merge
      raise [TypeError], and no generation function is invoked;
    - otherwise the call proceeds with [m], and every key of [m]'s fixed
      arguments is passed with [m]'s value;
    - the reserved keys are never on the caller's side, so a reserved key the
      caller also sent is passed with [m]'s value. *)
Theorem descriptor_value_or_TypeError (self self' : t) (m : Model.t) prompt kw w :
  _next_model self = (Ok m, self') ->
  (forall key,
      is_Some (Model.kwargs m !! key) ->
      is_Some (caller_arguments prompt kw !! key) ->
      invoked (llm_model_func self prompt kw w) = []
      /\ returned (llm_model_func self prompt kw w) = Raise TypeError)
  /\ (caller_arguments prompt kw ##ₘ Model.kwargs m ->
      exists args,
        invoked (llm_model_func self prompt kw w) = [(m, args)]
        /\ forall key v, Model.kwargs m !! key = Some v -> args !! key = Some v)
  /\ (forall key, key ∈ reserved_keys -> caller_arguments prompt kw !! key = None).
Proof.
  intros Hnext. rewrite (llm_model_func_selected _ _ _ _ _ _ Hnext).
  split; [| split].
  - intros key [v Hv] [c Hc].
    rewrite bool_decide_eq_false_2; [by split |].
    intros Hd. rewrite (map_disjoint_Some_l _ _ _ _ Hd Hc) in Hv. discriminate.
  - intros Hd. rewrite bool_decide_eq_true_2 by exact Hd.
    eexists. split; [reflexivity |].
    intros key v Hv. apply lookup_union_Some_raw. right. split; [| exact Hv].
    exact (map_disjoint_Some_r _ _ _ _ Hd Hv).
  - intros key. apply caller_arguments_reserved.
Qed.

Lemma descriptor_value_or_TypeError_witness :
  _next_model (__init__ [Examples.gpt4])
    = (Ok Examples.gpt4, {| _models := [Examples.gpt4]; _current_model := 0 |})
  /\ caller_arguments Examples.hello {[ "model" := PyStr "other" ]}
       !! "model" = None.
Proof.
  split; [reflexivity |].
  apply (descriptor_value_or_TypeError (__init__ [Examples.gpt4]) _
           Examples.gpt4 Examples.hello {[ "model" := PyStr "other" ]}
           Examples.w0 eq_refl).
  unfold reserved_keys. apply elem_of_cons. by left.
Defined.

(** C2 as stated fails: the caller's remaining options and the descriptor
    both set [temperature], and the call does not proceed. *)
Lemma colliding_key_raises_TypeError :
  remaining_options {[ "temperature" := PyInt 1 ]} !! "temperature" = Some (PyInt 1)
  /\ Model.kwargs Examples.cold !! "temperature" = Some (PyInt 0)
  /\ invoked (llm_model_func (__init__ [Examples.cold]) Examples.hello
                {[ "temperature" := PyInt 1 ]} Examples.w0) = []
  /\ returned (llm_model_func (__init__ [Examples.cold]) Examples.hello
                 {[ "temperature" := PyInt 1 ]} Examples.w0) = Raise TypeError.
Proof. repeat split; vm_compute; reflexivity. Qed.

(** C5 (as the code has it).  Whatever the caller's options hold under
    [model], [keyword_extraction] and [mode], the generation function
    receives those keys exactly as the descriptor's fixed arguments set them:
    absent when the descriptor does not set them, with the descriptor's value
    when it does.  The caller's value never arrives. *)
Theorem reserved_keys_as_descriptor_sets_them (self : t) prompt kw w
    (m : Model.t) (args : gmap string pyval) (key : string) :
  (m, args) ∈ invoked (llm_model_func self prompt kw w) ->
  key ∈ reserved_keys ->
  args !! key = Model.kwargs m !! key.
Proof.
  intros Hinv Hkey.
  destruct (_next_model self) as [[m' | e] self'] eqn:Hnext.
  - rewrite (llm_model_func_selected _ _ _ _ _ _ Hnext) in Hinv.
    destruct (bool_decide _); cbn [invoked] in Hinv.
    + apply list_elem_of_singleton in Hinv. injection Hinv as -> ->.
      apply lookup_union_r. by apply caller_arguments_reserved.
    + by apply elem_of_nil in Hinv.
  - unfold llm_model_func in Hinv. rewrite Hnext in Hinv.
    by apply elem_of_nil in Hinv.
Qed.

Lemma reserved_keys_as_descriptor_sets_them_witness :
  (Examples.key0,
   caller_arguments Examples.hello {[ "mode" := PyStr "hybrid" ]}
     ∪ Model.kwargs Examples.key0)
    ∈ invoked (llm_model_func (__init__ [Examples.key0]) Examples.hello
                 {[ "mode" := PyStr "hybrid" ]} Examples.w0)
  /\ "mode" ∈ reserved_keys
  /\ (caller_arguments Examples.hello {[ "mode" := PyStr "hybrid" ]}
        ∪ Model.kwargs Examples.key0) !! "mode"
     = Model.kwargs Examples.key0 !! "mode".
Proof.
  assert (H1 : (Examples.key0,
                caller_arguments Examples.hello {[ "mode" := PyStr "hybrid" ]}
                  ∪ Model.kwargs Examples.key0)
                 ∈ invoked (llm_model_func (__init__ [Examples.key0]) Examples.hello
                              {[ "mode" := PyStr "hybrid" ]} Examples.w0)).
  { rewrite (llm_model_func_selected (__init__ [Examples.key0])
               {| _models := [Examples.key0]; _current_model := 0 |}
               Examples.key0 _ _ _ eq_refl).
    apply list_elem_of_singleton. reflexivity. }
  assert (H2 : "mode" ∈ reserved_keys).
  { unfold reserved_keys. do 2 (apply elem_of_cons; right).
    apply elem_of_cons. by left. }
  split; [exact H1 |]. split; [exact H2 |].
  exact (reserved_keys_as_descriptor_sets_them _ _ _ _ _ _ _ H1 H2).
Defined.

(** C5 as stated fails: the caller sent [model], and [model] is among the
    keyword arguments the generation function receives, because the
    descriptor fixes it. *)
Lemma descriptor_model_key_is_passed :
  ({[ "model" := PyStr "other" ]} : gmap string pyval) !! "model"
    = Some (PyStr "other")
  /\ (fun x => x.2 !! "model")
       <$> invoked (llm_model_func (__init__ [Examples.gpt4]) Examples.hello
                      {[ "model" := PyStr "other" ]} Examples.w0)
     = [Some (PyStr "gpt-4")].
Proof. split; vm_compute; reflexivity. Qed.

End Collisions.

(** ** The environment overrides *)

Section Environment.

Lemma override_idem name value env :
  override name value (override name value env) = override name value env.
Proof.
  unfold override. destruct value; try reflexivity.
  destruct (truthy _); [apply insert_insert_eq | reflexivity].
Qed.

Lemma override_cases name value :
  (forall env, override name value env = env)
  \/ (exists s, forall env, override name value env = <[name := s]> env).
Proof.
  unfold override. destruct value; try (by left).
  destruct (truthy _); [right; by eexists | by left].
Qed.

Lemma azure_environ_idem base_url api_key api_version env :
  azure_environ base_url api_key api_version
    (azure_environ base_url api_key api_version env)
  = azure_environ base_url api_key api_version env.
Proof.
  unfold azure_environ.
  destruct (override_cases "AZURE_OPENAI_API_KEY" api_key) as [Hk | [k Hk]],
    (override_cases "AZURE_OPENAI_ENDPOINT" base_url) as [Hb | [b Hb]],
    (override_cases "AZURE_OPENAI_API_VERSION" api_version) as [Hv | [v Hv]];
    rewrite ?Hk, ?Hb, ?Hv; try reflexivity;
    apply map_eq; intros i; rewrite !lookup_insert;
    repeat case_decide; congruence.
Qed.

Lemma override_lookup_set name s env :
  s <> EmptyString -> override name (PyStr s) env !! name = Some s.
Proof.
  intros Hs. unfold override, truthy.
  destruct (String.eqb_spec s ""); [congruence |]. apply lookup_insert_eq.
Qed.

Lemma override_lookup_absent name value env :
  value = PyNone \/ value = PyStr EmptyString ->
  override name value env = env.
Proof. intros [-> | ->]; reflexivity. Qed.

Lemma override_lookup_ne name name' value env :
  name <> name' -> override name value env !! name' = env !! name'.
Proof.
  intros Hne. unfold override. destruct value; try reflexivity.
  destruct (truthy _); [by apply lookup_insert_ne | reflexivity].
Qed.

(** The opening lines on arguments that are strings or [None]: the writes
    never raise and leave [azure_environ] of the environment behind; the
    client is read from it, and the only exception is the constructor's. *)
Lemma azure_client_run openai base_url api_key api_version w :
  str_or_none base_url -> str_or_none api_key -> str_or_none api_version ->
  azure_client openai base_url api_key api_version w =
    (match new_client openai
             (azure_environ base_url api_key api_version (environ w))
             (client_of_environ
                (azure_environ base_url api_key api_version (environ w)))
     with
     | Some e => Raise e
     | None =>
         Ok (client_of_environ
               (azure_environ base_url api_key api_version (environ w)))
     end,
     {| environ := azure_environ base_url api_key api_version (environ w);
        sent := sent w; slept := slept w |}).
Proof.
  intros [-> | [b ->]] [-> | [k ->]] [-> | [v ->]]; destruct w as [env s z];
    unfold azure_client, azure_environ, override, bind, os_environ_set,
      os_getenv, ret, client_of_environ; cbn [environ sent slept truthy];
    repeat match goal with
           | |- context [String.eqb ?x ?y] =>
               destruct (String.eqb x y); cbn [environ sent slept negb]
           end;
    match goal with
    | |- context [new_client ?o ?e ?c] => destruct (new_client o e c)
    end; reflexivity.
Qed.

End Environment.

(** ** The retry loop *)

Section Retry.

Context {A : Type}.

Lemma is_transient_retry_on e :
  tenacity.retry_on retry_policy e = true <-> is_transient e.
Proof.
  unfold retry_policy, tenacity.retry_if_exception_type, transient_errors,
    is_transient. cbn [tenacity.retry_on existsb]. split.
  - destruct e; cbn; try discriminate; auto.
  - intros [-> | [-> | ->]]; reflexivity.
Qed.

(** The waits of the policy lie in [4, 10] and never decrease. *)
Lemma wait_bounds (n : Z) :
  1 <= n ->
  4 <= tenacity.wait retry_policy n <= 10
  /\ tenacity.wait retry_policy n <= tenacity.wait retry_policy (n + 1).
Proof.
  intros Hn. cbn [retry_policy tenacity.wait]. unfold tenacity.wait_exponential.
  assert (2 ^ (n - 1) <= 2 ^ (n + 1 - 1)) by (apply Z.pow_le_mono_r; lia).
  lia.
Qed.

(** With [stop_after_attempt(3)] the loop never needs more than three
    rounds: any fuel of at least three gives the decorated function's
    outcome. *)
Lemma retry_fuel_enough (fn : Py A) w fuel :
  (3 <= fuel)%nat ->
  tenacity.iter fuel retry_policy fn 1 w
  = Some (tenacity.retry max_attempts retry_policy fn w).
Proof.
  intros Hf. destruct fuel as [| [| [| fuel]]]; try lia.
  unfold tenacity.retry, max_attempts. cbn [tenacity.iter].
  destruct (fn w) as [[a | e] w1]; [reflexivity |].
  destruct (tenacity.retry_on retry_policy e); [| reflexivity].
  cbn [tenacity.stop retry_policy tenacity.stop_after_attempt Z.leb Z.compare
       Pos.compare Pos.compare_cont].
  destruct (fn _) as [[a | e2] w2]; [reflexivity |].
  destruct (tenacity.retry_on retry_policy e2); [| reflexivity].
  cbn [Z.add Pos.add Z.leb Z.compare Pos.compare Pos.compare_cont].
  destruct (fn _) as [[a | e3] w3]; [reflexivity |].
  destruct (tenacity.retry_on retry_policy e3); [| reflexivity].
  cbn [Z.add Pos.add Z.leb Z.compare Pos.compare Pos.compare_cont Pos.succ].
  reflexivity.
Qed.

(** A function that fails with a transient error on every run is run three
    times, with a sleep of 4 after the first and after the second run, and
    the loop gives up with [RetryError] around the last error. *)
Lemma retry_transient_exhausts (fn : Py A) w :
  (forall w1, exists e, (fn w1).1 = Raise e /\ is_transient e) ->
  exists e,
    is_transient e
    /\ tenacity.retry max_attempts retry_policy fn w
       = (Raise (RetryError e),
          (fn (sleep 4 (fn (sleep 4 (fn w).2).2).2).2).2)
    /\ (fn (sleep 4 (fn (sleep 4 (fn w).2).2).2).2).1 = Raise e.
Proof.
  intros Hfail. unfold tenacity.retry, max_attempts. cbn [tenacity.iter].
  destruct (Hfail w) as (e1 & H1 & T1).
  destruct (fn w) as [r1 w1]; cbn [fst snd] in *; subst r1.
  rewrite (proj2 (is_transient_retry_on e1) T1).
  cbn [tenacity.stop retry_policy tenacity.stop_after_attempt Z.leb Z.compare
       Pos.compare Pos.compare_cont tenacity.wait].
  change (tenacity.wait_exponential 1 4 10 1) with 4.
  destruct (Hfail (sleep 4 w1).2) as (e2 & H2 & T2).
  destruct (fn (sleep 4 w1).2) as [r2 w2]; cbn [fst snd] in *; subst r2.
  rewrite (proj2 (is_transient_retry_on e2) T2).
  change (tenacity.wait_exponential 1 4 10 (1 + 1)) with 4.
  cbn [Z.add Pos.add Z.leb Z.compare Pos.compare Pos.compare_cont].
  destruct (Hfail (sleep 4 w2).2) as (e3 & H3 & T3).
  destruct (fn (sleep 4 w2).2) as [r3 w3]; cbn [fst snd] in *; subst r3.
  rewrite (proj2 (is_transient_retry_on e3) T3).
  exists e3. repeat split; assumption.
Qed.

(** The same, for a function that is known to fail so only from the worlds
    of an invariant that each run followed by a sleep keeps; when each such
    run makes one call and does not sleep, the loop makes three calls and
    sleeps 4 twice. *)
Lemma retry_transient_exhausts_counted (P : World -> Prop) (fn : Py A) w :
  P w ->
  (forall w1, P w1 ->
     (exists e, (fn w1).1 = Raise e /\ is_transient e)
     /\ length (sent (fn w1).2) = S (length (sent w1))
     /\ slept (fn w1).2 = slept w1
     /\ forall d, P (sleep d (fn w1).2).2) ->
  exists e,
    is_transient e
    /\ (tenacity.retry max_attempts retry_policy fn w).1 = Raise (RetryError e)
    /\ length (sent (tenacity.retry max_attempts retry_policy fn w).2)
       = (length (sent w) + 3)%nat
    /\ slept (tenacity.retry max_attempts retry_policy fn w).2
       = slept w ++ [4; 4].
Proof.
  intros HP Hfn. unfold tenacity.retry, max_attempts. cbn [tenacity.iter].
  destruct (Hfn w HP) as ((e1 & H1 & T1) & Hs1 & Hz1 & HP1).
  specialize (HP1 4).
  destruct (fn w) as [r1 w1]; cbn [fst snd] in *; subst r1.
  rewrite (proj2 (is_transient_retry_on e1) T1).
  cbn [tenacity.stop retry_policy tenacity.stop_after_attempt Z.leb Z.compare
       Pos.compare Pos.compare_cont tenacity.wait].
  change (tenacity.wait_exponential 1 4 10 1) with 4.
  destruct (Hfn _ HP1) as ((e2 & H2 & T2) & Hs2 & Hz2 & HP2).
  specialize (HP2 4).
  destruct (fn (sleep 4 w1).2) as [r2 w2]; cbn [fst snd] in *; subst r2.
  rewrite (proj2 (is_transient_retry_on e2) T2).
  change (tenacity.wait_exponential 1 4 10 (1 + 1)) with 4.
  change (tenacity.stop_after_attempt 3 (1 + 1)) with false.
  change (tenacity.stop_after_attempt 3 (1 + 1 + 1)) with true.
  cbv iota.
  destruct (Hfn _ HP2) as ((e3 & H3 & T3) & Hs3 & Hz3 & _).
  destruct (fn (sleep 4 w2).2) as [r3 w3]; cbn [fst snd] in *; subst r3.
  rewrite (proj2 (is_transient_retry_on e3) T3).
  exists e3. cbn [fst snd]. split; [exact T3 |]. split; [reflexivity |].
  cbn [sleep snd sent slept] in Hs2, Hz2, Hs3, Hz3. split.
  - lia.
  - rewrite Hz3, Hz2, Hz1, <- app_assoc. reflexivity.
Qed.

(** An error of any other kind leaves the loop at once: one run, no sleep. *)
Lemma retry_other_error_once (fn : Py A) w e :
  (fn w).1 = Raise e -> ~ is_transient e ->
  tenacity.retry max_attempts retry_policy fn w = fn w.
Proof.
  intros He Hnt. unfold tenacity.retry, max_attempts. cbn [tenacity.iter].
  destruct (fn w) as [r1 w1]; cbn [fst] in He; subst r1.
  destruct (tenacity.retry_on retry_policy e) eqn:E; [| reflexivity].
  apply is_transient_retry_on in E. contradiction.
Qed.

(** A run that returns is not repeated. *)
Lemma retry_success_once (fn : Py A) w a :
  (fn w).1 = Ok a -> tenacity.retry max_attempts retry_policy fn w = fn w.
Proof.
  intros Ha. unfold tenacity.retry, max_attempts. cbn [tenacity.iter].
  destruct (fn w) as [r1 w1]; cbn [fst] in Ha; subst r1. reflexivity.
Qed.

(** An invariant of the runs and of the sleeps holds after the loop. *)
Lemma iter_invariant (I K : World -> Prop) (fn : Py A) :
  (forall w1, I w1 -> K (fn w1).2) ->
  (forall w1, K w1 -> I w1) ->
  (forall d w1, K w1 -> K (sleep d w1).2) ->
  forall fuel n w r w',
    I w -> tenacity.iter fuel retry_policy fn n w = Some (r, w') -> K w'.
Proof.
  intros Hrun HKI Hsleep. induction fuel as [| fuel IH]; intros n w r w' HI Hit.
  - discriminate.
  - cbn [tenacity.iter] in Hit. specialize (Hrun w HI).
    destruct (fn w) as [[a | e] w1]; cbn [snd] in Hrun.
    + by injection Hit as <- <-.
    + destruct (tenacity.retry_on retry_policy e).
      * destruct (tenacity.stop retry_policy n).
        -- by injection Hit as <- <-.
        -- eapply IH; [| exact Hit]. apply HKI, Hsleep, Hrun.
      * by injection Hit as <- <-.
Qed.

Lemma retry_invariant (I K : World -> Prop) (fn : Py A) w :
  (forall w1, I w1 -> K (fn w1).2) ->
  (forall w1, K w1 -> I w1) ->
  (forall d w1, K w1 -> K (sleep d w1).2) ->
  I w -> K (tenacity.retry max_attempts retry_policy fn w).2.
Proof.
  intros Hrun HKI Hsleep HI.
  pose proof (retry_fuel_enough fn w 3 (le_n 3)) as Hit.
  destruct (tenacity.retry max_attempts retry_policy fn w) as [r w'].
  exact (iter_invariant I K fn Hrun HKI Hsleep _ _ _ _ _ HI Hit).
Qed.

End Retry.

(** ** One run of each body *)

Section Bodies.

Context (openai : Provider).
Context (base_url api_key api_version : pyval).
Context (Hurl : str_or_none base_url) (Hkey : str_or_none api_key)
        (Hver : str_or_none api_version).

(** Once the overrides are in the environment, a later attempt builds the
    same client, so the constructor accepts it again. *)
Lemma client_accepted_again rq d w :
  client_accepted openai base_url api_key api_version w ->
  client_accepted openai base_url api_key api_version
    (sleep d (after_request base_url api_key api_version rq w)).2.
Proof.
  unfold client_accepted. cbn [sleep snd after_request environ].
  by rewrite azure_environ_idem.
Qed.

Lemma complete_body_run model prompt system_prompt history_messages kwargs
    messages w :
  client_accepted openai base_url api_key api_version w ->
  build_messages prompt system_prompt history_messages = Ok messages ->
  passed_twice ["model"; "messages"] (delete "hashing_kv" kwargs) = false ->
  azure_openai_complete_if_cache_body openai model prompt system_prompt
    history_messages base_url api_key api_version kwargs w
  = let rq := chat_request model messages base_url api_key api_version
                (delete "hashing_kv" kwargs) w in
    (match chat_completions_create openai (length (sent w)) rq with
     | Ok (Completion (choice :: _)) => Ok (message_content choice)
     | Ok (Completion []) => Raise IndexError
     | Ok (Stream _ _) => Raise AttributeError
     | Raise e => Raise e
     end,
     after_request base_url api_key api_version rq w).
Proof.
  intros Hc Hm Hk. unfold azure_openai_complete_if_cache_body, bind.
  rewrite azure_client_run by assumption. unfold client_accepted in Hc.
  rewrite Hc. unfold lift. rewrite Hm.
  unfold chat_create, chat_create_call, await_chat, bind. rewrite Hk.
  unfold chat_request, after_request. cbn [environ sent slept fst snd].
  destruct (chat_completions_create _ _ _) as [[[| c cs] | ch f] | e]; reflexivity.
Qed.

Lemma complete_body_no_messages model prompt system_prompt history_messages
    kwargs e w :
  client_accepted openai base_url api_key api_version w ->
  build_messages prompt system_prompt history_messages = Raise e ->
  azure_openai_complete_if_cache_body openai model prompt system_prompt
    history_messages base_url api_key api_version kwargs w
  = (Raise e,
     {| environ := azure_environ base_url api_key api_version (environ w);
        sent := sent w; slept := slept w |}).
Proof.
  intros Hc Hm. unfold azure_openai_complete_if_cache_body, bind.
  rewrite azure_client_run by assumption. unfold client_accepted in Hc.
  rewrite Hc. unfold lift. rewrite Hm. reflexivity.
Qed.

(** What one run of the completion body does to the environment and to the
    calls made, on every path through it. *)
Lemma complete_body_settles model prompt system_prompt history_messages
    kwargs w :
  environ (azure_openai_complete_if_cache_body openai model prompt
             system_prompt history_messages base_url api_key api_version
             kwargs w).2
    = azure_environ base_url api_key api_version (environ w)
  /\ (sent (azure_openai_complete_if_cache_body openai model prompt
              system_prompt history_messages base_url api_key api_version
              kwargs w).2 = sent w
      \/ exists rq,
           sent (azure_openai_complete_if_cache_body openai model prompt
                   system_prompt history_messages base_url api_key api_version
                   kwargs w).2 = sent w ++ [rq]
           /\ req_client rq
              = client_of_environ
                  (azure_environ base_url api_key api_version (environ w))).
Proof.
  unfold azure_openai_complete_if_cache_body, bind.
  rewrite azure_client_run by assumption.
  destruct (new_client openai _ _); [cbn [snd environ sent]; auto |].
  unfold lift.
  destruct (build_messages prompt system_prompt history_messages) as [ms | e];
    [| cbn [snd environ sent]; auto].
  unfold chat_create, chat_create_call, await_chat, bind.
  destruct (passed_twice _ _); [cbn [snd environ sent]; auto |].
  cbn [environ sent slept fst snd].
  destruct (chat_completions_create _ _ _) as [[[| c cs] | ch f] | e];
    cbn [snd environ sent raise ret]; (split; [reflexivity |]); right;
    eexists; split; reflexivity.
Qed.

Lemma embedding_body_run texts model w :
  client_accepted openai base_url api_key api_version w ->
  azure_openai_embedding_body openai texts model base_url api_key api_version w
  = let rq := embedding_request texts model base_url api_key api_version w in
    (match embeddings_create openai (length (sent w)) rq with
     | Ok data => np_array (map embedding data)
     | Raise e => Raise e
     end,
     after_request base_url api_key api_version rq w).
Proof.
  intros Hc. unfold azure_openai_embedding_body, bind.
  rewrite azure_client_run by assumption. unfold client_accepted in Hc.
  rewrite Hc.
  unfold embed_create, embedding_request, after_request, lift.
  cbn [environ sent slept].
  destruct (embeddings_create _ _ _); reflexivity.
Qed.

Lemma embedding_body_settles texts model w :
  environ (azure_openai_embedding_body openai texts model base_url api_key
             api_version w).2
    = azure_environ base_url api_key api_version (environ w)
  /\ (sent (azure_openai_embedding_body openai texts model base_url api_key
              api_version w).2 = sent w
      \/ exists rq,
           sent (azure_openai_embedding_body openai texts model base_url
                   api_key api_version w).2 = sent w ++ [rq]
           /\ req_client rq
              = client_of_environ
                  (azure_environ base_url api_key api_version (environ w))).
Proof.
  unfold azure_openai_embedding_body, bind.
  rewrite azure_client_run by assumption.
  destruct (new_client openai _ _); [cbn [snd environ sent]; auto |].
  unfold embed_create, lift. cbn [environ sent slept].
  destruct (embeddings_create _ _ _);
    cbn [snd environ sent]; (split; [reflexivity |]); right;
    eexists; split; reflexivity.
Qed.

Lemma passed_twice_stream names (kwargs : gmap string pyval) :
  "stream" ∉ names ->
  passed_twice names (<["stream" := PyBool true]> kwargs)
  = passed_twice names kwargs.
Proof.
  unfold passed_twice. induction names as [| name rest IH]; [reflexivity |].
  intros Hnot. apply not_elem_of_cons in Hnot as [Hne Hrest].
  cbn [existsb]. rewrite IH by exact Hrest.
  by rewrite lookup_insert_ne by exact Hne.
Qed.

(** The streaming body when the set-up succeeds: the call of [create] is
    made, and [async for] raises [TypeError] on what it hands back. *)
Lemma stream_body_run model prompt system_prompt history_messages kwargs
    messages w :
  client_accepted openai base_url api_key api_version w ->
  build_messages prompt system_prompt history_messages = Ok messages ->
  passed_twice ["model"; "messages"] (delete "hashing_kv" kwargs) = false ->
  azure_openai_complete_if_cache_stream_body openai model prompt system_prompt
    history_messages base_url api_key api_version kwargs w
  = (([], Some TypeError),
     after_request base_url api_key api_version
       (chat_request model messages base_url api_key api_version
          (<["stream" := PyBool true]> (delete "hashing_kv" kwargs)) w) w).
Proof.
  intros Hc Hm Hk. unfold azure_openai_complete_if_cache_stream_body, bind.
  rewrite azure_client_run by assumption. unfold client_accepted in Hc.
  rewrite Hc. unfold lift. rewrite Hm. unfold chat_create_call.
  rewrite passed_twice_stream, Hk; [reflexivity |].
  rewrite !not_elem_of_cons. repeat split; try discriminate. apply not_elem_of_nil.
Qed.

Lemma stream_body_settles model prompt system_prompt history_messages
    kwargs w :
  environ (azure_openai_complete_if_cache_stream_body openai model prompt
             system_prompt history_messages base_url api_key api_version
             kwargs w).2
    = azure_environ base_url api_key api_version (environ w)
  /\ (sent (azure_openai_complete_if_cache_stream_body openai model prompt
              system_prompt history_messages base_url api_key api_version
              kwargs w).2 = sent w
      \/ exists rq,
           sent (azure_openai_complete_if_cache_stream_body openai model
                   prompt system_prompt history_messages base_url api_key
                   api_version kwargs w).2 = sent w ++ [rq]
           /\ req_client rq
              = client_of_environ
                  (azure_environ base_url api_key api_version (environ w))).
Proof.
  unfold azure_openai_complete_if_cache_stream_body, bind.
  rewrite azure_client_run by assumption.
  destruct (new_client openai _ _); [cbn [snd environ sent]; auto |].
  unfold lift.
  destruct (build_messages prompt system_prompt history_messages) as [ms | e];
    [| cbn [snd environ sent]; auto].
  unfold chat_create_call.
  destruct (passed_twice _ _); cbn [snd environ sent]; [auto |].
  split; [reflexivity |]. right. eexists. split; reflexivity.
Qed.

(** The generator function itself runs nothing: the call returns at the first
    attempt, and the world is untouched. *)
Lemma stream_function_returns_generator model prompt system_prompt
    history_messages kwargs w :
  azure_openai_complete_if_cache_stream openai model prompt system_prompt
    history_messages base_url api_key api_version kwargs w
  = (Ok {| agen_run :=
             azure_openai_complete_if_cache_stream_body openai model prompt
               system_prompt history_messages base_url api_key api_version
               kwargs |}, w).
Proof. reflexivity. Qed.

Lemma stream_call_is_one_body_run model prompt system_prompt
    history_messages kwargs w :
  stream_call openai model prompt system_prompt history_messages
    base_url api_key api_version kwargs w
  = azure_openai_complete_if_cache_stream_body openai model prompt
      system_prompt history_messages base_url api_key api_version kwargs w.
Proof. reflexivity. Qed.

End Bodies.

(** The streaming call yields nothing, never sleeps, and does not depend on
    what the provider would answer: it never asks. *)
Lemma stream_call_is_silent openai model prompt system_prompt
    history_messages base_url api_key api_version kwargs w :
  (stream_call openai model prompt system_prompt history_messages
     base_url api_key api_version kwargs w).1.1 = []
  /\ (exists e,
        (stream_call openai model prompt system_prompt history_messages
           base_url api_key api_version kwargs w).1.2 = Some e)
  /\ forall answers embeddings,
       stream_call {| new_client := new_client openai;
                      chat_completions_create := answers;
                      embeddings_create := embeddings |}
         model prompt system_prompt history_messages
         base_url api_key api_version kwargs w
       = stream_call openai model prompt system_prompt history_messages
           base_url api_key api_version kwargs w.
Proof.
  change (stream_call openai model prompt system_prompt history_messages
            base_url api_key api_version kwargs w)
    with (azure_openai_complete_if_cache_stream_body openai model prompt
            system_prompt history_messages base_url api_key api_version kwargs w).
  unfold azure_openai_complete_if_cache_stream_body.
  split; [| split].
  - match goal with |- (match ?c with _ => _ end).1.1 = _ =>
      destruct c as [[co | e] w1] end; reflexivity.
  - match goal with |- exists e, (match ?c with _ => _ end).1.2 = _ =>
      destruct c as [[co | e] w1] end; eexists; reflexivity.
  - intros answers embeddings. reflexivity.
Qed.

(** ** Environment effect of the three adapters *)

Section EnvironmentEffect.

Context (openai : Provider).
Context (base_url api_key api_version : pyval).
Context (Hurl : str_or_none base_url) (Hkey : str_or_none api_key)
        (Hver : str_or_none api_version).

Lemma sent_since_refl env w : sent_since env w w.
Proof. exists []. split; [by rewrite app_nil_r | constructor]. Qed.

Lemma sent_since_snoc env w w1 w2 rq :
  sent_since env w w1 ->
  sent w2 = sent w1 ++ [rq] ->
  req_client rq = client_of_environ env ->
  sent_since env w w2.
Proof.
  intros (new & Hs & Hall) H2 Hrq. exists (new ++ [rq]). split.
  - rewrite H2, Hs. by rewrite app_assoc.
  - apply Forall_app. split; [exact Hall |]. by constructor.
Qed.

Lemma sent_since_same env w w1 w2 :
  sent_since env w w1 -> sent w2 = sent w1 -> sent_since env w w2.
Proof. intros (new & Hs & Hall) H2. exists new. by rewrite H2. Qed.

Lemma environment_effect_intro w w' :
  environ w' = azure_environ base_url api_key api_version (environ w) ->
  sent_since (environ w') w w' ->
  environment_effect base_url api_key api_version w w'.
Proof.
  intros He Hs. unfold environment_effect. split; [| split; [| exact Hs]].
  - intros name value Hin. unfold overrides in Hin.
    rewrite He. unfold azure_environ.
    repeat (apply elem_of_cons in Hin as [Hin | Hin]);
      [| | | by apply elem_of_nil in Hin]; injection Hin as -> ->; split.
    + intros s -> Hs'. rewrite !override_lookup_ne by discriminate.
      by apply override_lookup_set.
    + intros Habs. rewrite !override_lookup_ne by discriminate.
      by rewrite override_lookup_absent.
    + intros s -> Hs'. rewrite override_lookup_ne by discriminate.
      by apply override_lookup_set.
    + intros Habs. rewrite override_lookup_ne by discriminate.
      rewrite (override_lookup_absent _ base_url) by assumption.
      by rewrite override_lookup_ne by discriminate.
    + intros s -> Hs'. by apply override_lookup_set.
    + intros Habs. rewrite (override_lookup_absent _ api_version) by assumption.
      by rewrite !override_lookup_ne by discriminate.
  - intros name Hnot. rewrite He. unfold azure_environ.
    unfold overrides in Hnot. cbn [fmap list_fmap fst] in Hnot.
    rewrite !not_elem_of_cons in Hnot. destruct Hnot as (H1 & H2 & H3 & _).
    by rewrite !override_lookup_ne by congruence.
Qed.

(** What every run of a body establishes, started from a world in which the
    overrides would give [env]. *)
Lemma run_settles {A} (fn : Py A) w :
  (forall w1,
      environ (fn w1).2 = azure_environ base_url api_key api_version (environ w1)
      /\ (sent (fn w1).2 = sent w1
          \/ exists rq,
               sent (fn w1).2 = sent w1 ++ [rq]
               /\ req_client rq
                  = client_of_environ
                      (azure_environ base_url api_key api_version (environ w1)))) ->
  environment_effect base_url api_key api_version w
    (tenacity.retry max_attempts retry_policy fn w).2.
Proof.
  intros Hfn.
  set (env := azure_environ base_url api_key api_version (environ w)).
  assert (HK : environ (tenacity.retry max_attempts retry_policy fn w).2 = env
               /\ sent_since env w (tenacity.retry max_attempts retry_policy fn w).2).
  { apply (retry_invariant
             (fun w1 => azure_environ base_url api_key api_version (environ w1) = env
                        /\ sent_since env w w1)
             (fun w1 => environ w1 = env /\ sent_since env w w1)).
    - intros w1 [HE HS]. destruct (Hfn w1) as [He Hsent]. split.
      + by rewrite He.
      + destruct Hsent as [Hsame | (rq & Hsnoc & Hrq)].
        * by eapply sent_since_same.
        * eapply sent_since_snoc; [exact HS | exact Hsnoc |]. by rewrite Hrq, HE.
    - intros w1 [HE HS]. split; [| exact HS].
      rewrite HE. apply azure_environ_idem.
    - intros d w1 [HE HS]. split; [exact HE |].
      eapply sent_since_same; [exact HS | reflexivity].
    - split; [reflexivity | apply sent_since_refl]. }
  destruct HK as [HE HS]. apply environment_effect_intro.
  - exact HE.
  - by rewrite HE.
Qed.

(** C8.  For each of the three adapters, called with [base_url], [api_key]
    and [api_version] that are strings or [None]: a variable whose argument
    is a non-empty string holds that string in the environment the call
    leaves behind; a variable whose argument is absent is unchanged, and its
    value is what the client reads; no other variable is touched.  This holds
    whatever the provider answers, on every path out of the call (return,
    error, exhausted retries).  All three are asynchronous: the statement is
    about the awaited call, and for the streaming function about the call
    together with the iteration of the generator it returns, which is when
    its body runs. *)
Theorem environment_overrides_persist
    model prompt system_prompt history_messages kwargs texts embedding_model w :
  environment_effect base_url api_key api_version w
    (azure_openai_complete_if_cache openai model prompt system_prompt
       history_messages base_url api_key api_version kwargs w).2
  /\ environment_effect base_url api_key api_version w
       (func (azure_openai_embedding openai) texts embedding_model
          base_url api_key api_version w).2
  /\ environment_effect base_url api_key api_version w
       (stream_call openai model prompt system_prompt history_messages
          base_url api_key api_version kwargs w).2.
Proof.
  split; [| split].
  - apply run_settles. intros w1.
    apply (complete_body_settles openai _ _ _ Hurl Hkey Hver).
  - cbn [azure_openai_embedding wrap_embedding_func_with_attrs func].
    apply run_settles. intros w1.
    apply (embedding_body_settles openai _ _ _ Hurl Hkey Hver).
  - rewrite stream_call_is_one_body_run.
    destruct (stream_body_settles openai _ _ _ Hurl Hkey Hver model prompt
                system_prompt history_messages kwargs w)
      as [He [Hs | (rq & Hs & Hrq)]].
    + apply environment_effect_intro; [exact He |].
      eapply sent_since_same; [apply sent_since_refl | exact Hs].
    + apply environment_effect_intro; [exact He |].
      eapply sent_since_snoc; [apply sent_since_refl | exact Hs |].
      by rewrite He.
Qed.

End EnvironmentEffect.

Lemma environment_overrides_persist_witness :
  str_or_none PyNone
  /\ str_or_none (PyStr "secret")
  /\ environment_effect PyNone (PyStr "secret") PyNone Examples.w0
       (azure_openai_complete_if_cache Examples.helpful (PyStr "gpt-4o")
          Examples.hello PyNone (PyList []) PyNone (PyStr "secret") PyNone ∅
          Examples.w0).2.
Proof.
  assert (H0 : str_or_none PyNone) by (by left).
  assert (H1 : str_or_none (PyStr "secret")) by (right; by eexists).
  split; [exact H0 |]. split; [exact H1 |].
  exact (proj1 (environment_overrides_persist Examples.helpful
                  PyNone (PyStr "secret") PyNone H0 H1 H0
                  (PyStr "gpt-4o") Examples.hello PyNone (PyList []) ∅
                  [] PyNone Examples.w0)).
Defined.

(** ** Attempts and delays *)

Section Attempts.

Context (openai : Provider).
Context (base_url api_key api_version : pyval).
Context (Hurl : str_or_none base_url) (Hkey : str_or_none api_key)
        (Hver : str_or_none api_version).

(** The completion wrapper against a provider that fails with a transient
    error on every request: three requests, sleeps of 4 and 4 between them,
    then [RetryError] around the last transient error. *)
Lemma complete_retries_transient model prompt system_prompt history_messages
    kwargs messages w :
  client_accepted openai base_url api_key api_version w ->
  build_messages prompt system_prompt history_messages = Ok messages ->
  passed_twice ["model"; "messages"] (delete "hashing_kv" kwargs) = false ->
  (forall n rq, exists e,
      chat_completions_create openai n rq = Raise e /\ is_transient e) ->
  exists e,
    is_transient e
    /\ (azure_openai_complete_if_cache openai model prompt system_prompt
          history_messages base_url api_key api_version kwargs w).1
       = Raise (RetryError e)
    /\ length (sent (azure_openai_complete_if_cache openai model prompt
                       system_prompt history_messages base_url api_key
                       api_version kwargs w).2)
       = (length (sent w) + 3)%nat
    /\ slept (azure_openai_complete_if_cache openai model prompt system_prompt
                history_messages base_url api_key api_version kwargs w).2
       = slept w ++ [4; 4].
Proof.
  intros Hc Hm Hk Hfail. unfold azure_openai_complete_if_cache.
  apply (retry_transient_exhausts_counted
           (client_accepted openai base_url api_key api_version));
    [exact Hc |].
  intros w1 Hc1.
  rewrite (complete_body_run openai _ _ _ Hurl Hkey Hver _ _ _ _ _ _ _ Hc1 Hm Hk).
  cbn [fst snd after_request sent slept]. repeat split.
  - destruct (Hfail (length (sent w1))
                (chat_request model messages base_url api_key api_version
                   (delete "hashing_kv" kwargs) w1)) as (e & -> & He).
    by exists e.
  - rewrite length_app. cbn. lia.
  - intros d. by apply client_accepted_again.
Qed.

(** The completion wrapper against a provider that fails with another kind
    of error: one request, no sleep, and that error is what is raised. *)
Lemma complete_other_error_once model prompt system_prompt history_messages
    kwargs messages w e :
  client_accepted openai base_url api_key api_version w ->
  build_messages prompt system_prompt history_messages = Ok messages ->
  passed_twice ["model"; "messages"] (delete "hashing_kv" kwargs) = false ->
  (forall n rq, chat_completions_create openai n rq = Raise e) ->
  ~ is_transient e ->
  (azure_openai_complete_if_cache openai model prompt system_prompt
     history_messages base_url api_key api_version kwargs w).1 = Raise e
  /\ length (sent (azure_openai_complete_if_cache openai model prompt
                     system_prompt history_messages base_url api_key
                     api_version kwargs w).2)
     = (length (sent w) + 1)%nat
  /\ slept (azure_openai_complete_if_cache openai model prompt system_prompt
              history_messages base_url api_key api_version kwargs w).2
     = slept w.
Proof.
  intros Hc Hm Hk Hfail Hnt. unfold azure_openai_complete_if_cache.
  rewrite (retry_other_error_once _ w e); [| | exact Hnt];
    rewrite (complete_body_run openai _ _ _ Hurl Hkey Hver _ _ _ _ _ _ _ Hc Hm Hk);
    cbn [fst snd after_request sent slept]; rewrite Hfail; [| reflexivity].
  split; [reflexivity |]. split; [| reflexivity].
  rewrite length_app. cbn. lia.
Qed.

(** The embedding wrapper behaves the same way. *)
Lemma embedding_retries_transient texts model w :
  client_accepted openai base_url api_key api_version w ->
  (forall n rq, exists e,
      embeddings_create openai n rq = Raise e /\ is_transient e) ->
  exists e,
    is_transient e
    /\ (func (azure_openai_embedding openai) texts model base_url api_key
          api_version w).1 = Raise (RetryError e)
    /\ length (sent (func (azure_openai_embedding openai) texts model base_url
                       api_key api_version w).2)
       = (length (sent w) + 3)%nat
    /\ slept (func (azure_openai_embedding openai) texts model base_url
                api_key api_version w).2
       = slept w ++ [4; 4].
Proof.
  intros Hc Hfail.
  cbn [azure_openai_embedding wrap_embedding_func_with_attrs func].
  apply (retry_transient_exhausts_counted
           (client_accepted openai base_url api_key api_version));
    [exact Hc |].
  intros w1 Hc1.
  rewrite (embedding_body_run openai _ _ _ Hurl Hkey Hver _ _ _ Hc1).
  cbn [fst snd after_request sent slept]. repeat split.
  - destruct (Hfail (length (sent w1))
                (embedding_request texts model base_url api_key api_version w1))
      as (e & -> & He).
    by exists e.
  - rewrite length_app. cbn. lia.
  - intros d. by apply client_accepted_again.
Qed.

(** The streaming function against any provider: the decorator wraps only
    the call that builds the generator, which never fails, so the body runs
    once and there is no sleep; the body calls [create] without awaiting it,
    so the provider is not asked and [TypeError] ends the stream. *)
Lemma stream_ends_in_TypeError model prompt system_prompt
    history_messages kwargs messages w :
  client_accepted openai base_url api_key api_version w ->
  build_messages prompt system_prompt history_messages = Ok messages ->
  passed_twice ["model"; "messages"] (delete "hashing_kv" kwargs) = false ->
  (stream_call openai model prompt system_prompt history_messages
     base_url api_key api_version kwargs w).1 = ([], Some TypeError)
  /\ slept (stream_call openai model prompt system_prompt history_messages
              base_url api_key api_version kwargs w).2
     = slept w.
Proof.
  intros Hc Hm Hk. rewrite stream_call_is_one_body_run.
  rewrite (stream_body_run openai _ _ _ Hurl Hkey Hver _ _ _ _ _ _ _ Hc Hm Hk).
  by split.
Qed.

End Attempts.

(** C4.  Against a provider that is rate limited on every request, in a
    process whose environment is configured, consuming the streaming
    function ends at once with [TypeError] and without a sleep: nothing is
    retried, and the rate limit is never met, because the provider is never
    asked (the outcome is the same for every provider).  Two slips meet
    here: the [retry] decorator wraps the call that builds the generator,
    not the body; and the body calls [create] without awaiting it.  On the
    same provider the completion and the embedding wrappers behave as the
    claim says: three requests, sleeps of 4 and 4, then [RetryError] around
    the rate-limit error; and an error of another kind is raised after one
    request. *)
Theorem stream_wrapper_does_not_retry :
  (stream_call Examples.rate_limited (PyStr "gpt-4o") Examples.hello PyNone
     (PyList []) PyNone PyNone PyNone ∅ Examples.configured).1
    = ([], Some TypeError)
  /\ slept (stream_call Examples.rate_limited (PyStr "gpt-4o") Examples.hello
              PyNone (PyList []) PyNone PyNone PyNone ∅
              Examples.configured).2 = []
  /\ (forall openai answers embeddings model prompt system_prompt
             history_messages base_url api_key api_version kwargs w,
        stream_call {| new_client := new_client openai;
                       chat_completions_create := answers;
                       embeddings_create := embeddings |}
          model prompt system_prompt history_messages
          base_url api_key api_version kwargs w
        = stream_call openai model prompt system_prompt history_messages
            base_url api_key api_version kwargs w)
  /\ (azure_openai_complete_if_cache Examples.rate_limited (PyStr "gpt-4o")
        Examples.hello PyNone (PyList []) PyNone PyNone PyNone ∅
        Examples.configured).1
     = Raise (RetryError RateLimitError)
  /\ length (sent (azure_openai_complete_if_cache Examples.rate_limited
                     (PyStr "gpt-4o") Examples.hello PyNone (PyList []) PyNone
                     PyNone PyNone ∅ Examples.configured).2) = 3%nat
  /\ slept (azure_openai_complete_if_cache Examples.rate_limited
              (PyStr "gpt-4o") Examples.hello PyNone (PyList []) PyNone PyNone
              PyNone ∅ Examples.configured).2 = [4; 4]
  /\ (func (azure_openai_embedding Examples.rate_limited) ["a"; "b"] PyNone
        PyNone PyNone PyNone Examples.configured).1
     = Raise (RetryError RateLimitError)
  /\ length (sent (func (azure_openai_embedding Examples.rate_limited)
                     ["a"; "b"] PyNone PyNone PyNone PyNone
                     Examples.configured).2)
     = 3%nat
  /\ (azure_openai_complete_if_cache Examples.unauthorized (PyStr "gpt-4o")
        Examples.hello PyNone (PyList []) PyNone PyNone PyNone ∅
        Examples.configured).1
     = Raise (ProviderError 401)
  /\ length (sent (azure_openai_complete_if_cache Examples.unauthorized
                     (PyStr "gpt-4o") Examples.hello PyNone (PyList []) PyNone
                     PyNone PyNone ∅ Examples.configured).2) = 1%nat.
Proof.
  split; [vm_compute; reflexivity |]. split; [vm_compute; reflexivity |].
  split.
  { intros. apply stream_call_is_silent. }
  repeat split; vm_compute; reflexivity.
Qed.

(** ** Keyword extraction *)

Section KeywordExtraction.

Context (openai : Provider).

(** The value [azure_openai_complete] gives back is the completion as the
    inner call returned it: the flag read by [kwargs.pop] is always [None],
    because the keyword was bound to the parameter of the same name. *)
Lemma complete_returns_raw_completion prompt kw w :
  azure_openai_complete openai prompt kw w
  = (let kwargs :=
       delete "keyword_extraction"
         (star_kwargs ["prompt"; "system_prompt"; "history_messages";
                       "keyword_extraction"] kw) in
     if passed_twice ["model"; "prompt"; "system_prompt"; "history_messages"] kwargs
     then raise TypeError
     else azure_openai_complete_if_cache openai (PyStr "gpt-4o") prompt
            (default PyNone (kw !! "system_prompt"))
            (default (PyList []) (kw !! "history_messages"))
            (default PyNone (kwargs !! "base_url"))
            (default PyNone (kwargs !! "api_key"))
            (default PyNone (kwargs !! "api_version"))
            (star_kwargs ["base_url"; "api_key"; "api_version"] kwargs)) w.
Proof.
  unfold azure_openai_complete. cbv zeta.
  assert (Hnone : star_kwargs ["prompt"; "system_prompt"; "history_messages";
                               "keyword_extraction"] kw
                    !! "keyword_extraction" = None).
  { unfold star_kwargs. cbn [foldr].
    rewrite !lookup_delete_ne by discriminate. apply lookup_delete_eq. }
  rewrite Hnone. cbn [default truthy]. unfold bind.
  match goal with |- match ?c with _ => _ end = _ => destruct c as [[r | e] w1] end;
    reflexivity.
Qed.

Lemma complete_ignores_flag prompt kw flag w :
  azure_openai_complete openai prompt (<["keyword_extraction" := flag]> kw) w
  = azure_openai_complete openai prompt (delete "keyword_extraction" kw) w.
Proof.
  rewrite !complete_returns_raw_completion. cbv zeta.
  assert (Hstar : star_kwargs ["prompt"; "system_prompt"; "history_messages";
                               "keyword_extraction"]
                    (<["keyword_extraction" := flag]> kw)
                  = star_kwargs ["prompt"; "system_prompt"; "history_messages";
                                 "keyword_extraction"]
                      (delete "keyword_extraction" kw)).
  { unfold star_kwargs. cbn [foldr].
    by rewrite delete_insert_eq, delete_delete_eq. }
  rewrite Hstar.
  rewrite !(lookup_insert_ne kw), !(lookup_delete_ne kw) by discriminate.
  reflexivity.
Qed.

End KeywordExtraction.

(** C3.  [azure_openai_complete] returns the same thing whatever the caller
    passes as [keyword_extraction]; with the flag set to [True] and a
    completion that embeds a JSON object, it returns the whole completion,
    not the embedded object the post-processor would locate. *)
Theorem keyword_extraction_flag_is_ignored :
  (forall openai prompt kw flag w,
      azure_openai_complete openai prompt (<["keyword_extraction" := flag]> kw) w
      = azure_openai_complete openai prompt (delete "keyword_extraction" kw) w)
  /\ (azure_openai_complete Examples.helpful Examples.hello
        {[ "keyword_extraction" := PyBool true ]} Examples.configured).1
     = Ok (PyStr "Here are the terms: {high: [a], low: [b]}")
  /\ locate_json_string_body_from_string
       (PyStr "Here are the terms: {high: [a], low: [b]}")
     = Ok (PyStr "{high: [a], low: [b]}").
Proof.
  split; [exact complete_ignores_flag |].
  split; vm_compute; reflexivity.
Qed.

(** ** Streaming *)

(** C6.  Against a provider that would stream the fragments [Hel], [lo] and
    [ world], in a process whose environment is configured, consuming the
    stream of [azure_openai_complete_if_cache_stream] yields no fragment and
    ends with [TypeError]: the fragments never concatenate to
    [Hello world].  Whatever the provider and the arguments, the stream
    yields nothing and ends with an exception, because line 179 iterates
    [create] without awaiting it and the loop body is never entered. *)
Theorem stream_yields_nothing :
  (stream_call (Examples.streaming Examples.hello_world_chunks)
     (PyStr "gpt-4o") Examples.hello PyNone (PyList []) PyNone PyNone PyNone ∅
     Examples.configured).1
    = ([], Some TypeError)
  /\ forall openai model prompt system_prompt history_messages
            base_url api_key api_version kwargs w,
       (stream_call openai model prompt system_prompt history_messages
          base_url api_key api_version kwargs w).1.1 = []
       /\ exists e,
            (stream_call openai model prompt system_prompt history_messages
               base_url api_key api_version kwargs w).1.2 = Some e.
Proof.
  split; [vm_compute; reflexivity |].
  intros openai model prompt system_prompt history_messages
         base_url api_key api_version kwargs w.
  destruct (stream_call_is_silent openai model prompt system_prompt
              history_messages base_url api_key api_version kwargs w)
    as (Hnone & Herr & _).
  by split.
Qed.

(** ** Embeddings *)

Lemma np_array_uniform (rows : list (list float)) (width : nat) :
  Forall (fun row => length row = width) rows -> np_array rows = Ok rows.
Proof.
  intros Hall. destruct rows as [| first rest]; [reflexivity |].
  apply Forall_cons in Hall as [Hfirst Hrest]. cbn [np_array].
  assert (Hb : forallb (fun row => Nat.eqb (length row) (length first)) rest
               = true).
  { apply forallb_forall. intros row Hin.
    apply Nat.eqb_eq. rewrite Hfirst.
    apply (proj1 (Forall_forall _ _) Hrest). by apply list_elem_of_In. }
  by rewrite Hb.
Qed.

Section Embeddings.

Context (openai : Provider).
Context (base_url api_key api_version : pyval).
Context (Hurl : str_or_none base_url) (Hkey : str_or_none api_key)
        (Hver : str_or_none api_version).

(** C9 (as the code has it).  When the client is accepted and the provider
    answers the embedding request with one embedding per input text, all of
    one width, the call returns the matrix of those embeddings, in order and
    as they are: exactly one row per input text, each row of the width the
    provider chose.  That width is the configured [embedding_dim] (1536)
    when the provider's embeddings are 1536 wide; the attribute is recorded,
    not enforced. *)
Theorem embedding_rows_follow_response texts model data (width : nat) w :
  client_accepted openai base_url api_key api_version w ->
  embeddings_create openai (length (sent w))
    (embedding_request texts model base_url api_key api_version w) = Ok data ->
  length data = length texts ->
  Forall (fun d => length (embedding d) = width) data ->
  (func (azure_openai_embedding openai) texts model base_url api_key
     api_version w).1 = Ok (map embedding data)
  /\ length (map embedding data) = length texts
  /\ Forall (fun row => length row = width) (map embedding data)
  /\ embedding_dim (azure_openai_embedding openai) = 1536
  /\ (Z.of_nat width = 1536 ->
      Forall (fun row => Z.of_nat (length row)
                         = embedding_dim (azure_openai_embedding openai))
        (map embedding data)).
Proof.
  intros Hc Hdata Hlen Hwidth.
  assert (Hrows : Forall (fun row => length row = width) (map embedding data)).
  { by apply Forall_map. }
  cbn [azure_openai_embedding wrap_embedding_func_with_attrs func embedding_dim].
  assert (Hrun : (azure_openai_embedding_body openai texts model base_url
                    api_key api_version w).1 = Ok (map embedding data)).
  { rewrite (embedding_body_run openai _ _ _ Hurl Hkey Hver _ _ _ Hc).
    cbn [fst]. rewrite Hdata. by apply np_array_uniform with (width := width). }
  rewrite (retry_success_once _ _ _ Hrun).
  split; [exact Hrun |]. split; [by rewrite length_map |].
  split; [exact Hrows |]. split; [reflexivity |].
  intros Hw. eapply Forall_impl; [exact Hrows |].
  intros row Hr. cbn beta in Hr. by rewrite Hr.
Qed.

End Embeddings.

Lemma embedding_rows_follow_response_witness :
  str_or_none PyNone
  /\ client_accepted Examples.helpful PyNone PyNone PyNone Examples.configured
  /\ embeddings_create Examples.helpful 0
       (embedding_request ["a"; "b"; "c"] (PyStr "text-embedding-3-small")
          PyNone PyNone PyNone Examples.configured)
     = Ok (map (fun _ => {| embedding := repeat 0%float 1536 |}) ["a"; "b"; "c"])
  /\ Forall (fun d => length (embedding d) = 1536%nat)
       (map (fun _ => {| embedding := repeat 0%float 1536 |}) ["a"; "b"; "c"])
  /\ (func (azure_openai_embedding Examples.helpful) ["a"; "b"; "c"]
        (PyStr "text-embedding-3-small") PyNone PyNone PyNone
        Examples.configured).1
     = Ok (map embedding
             (map (fun _ => {| embedding := repeat 0%float 1536 |})
                ["a"; "b"; "c"])).
Proof.
  assert (H0 : str_or_none PyNone) by (by left).
  assert (Hc : client_accepted Examples.helpful PyNone PyNone PyNone
                 Examples.configured) by reflexivity.
  assert (Hw : Forall (fun d => length (embedding d) = 1536%nat)
                 (map (fun _ => {| embedding := repeat 0%float 1536 |})
                    ["a"; "b"; "c"])).
  { repeat constructor; apply repeat_length. }
  split; [exact H0 |]. split; [exact Hc |]. split; [reflexivity |].
  split; [exact Hw |].
  exact (proj1 (embedding_rows_follow_response Examples.helpful
                  PyNone PyNone PyNone H0 H0 H0
                  ["a"; "b"; "c"] (PyStr "text-embedding-3-small") _ 1536%nat
                  Examples.configured Hc eq_refl eq_refl Hw)).
Defined.

(** C9 as stated fails: in a configured process, asked for the large
    embedding model, the provider answers three texts with three rows of
    width 3072, and those are the rows returned, while the configured
    dimension is 1536. *)
Lemma large_model_rows_are_wider :
  match (func (azure_openai_embedding Examples.helpful) ["a"; "b"; "c"]
           (PyStr "text-embedding-3-large") PyNone PyNone PyNone
           Examples.configured).1
  with
  | Ok rows => map (fun row => length row) rows = [3072; 3072; 3072]%nat
  | Raise _ => False
  end
  /\ embedding_dim (azure_openai_embedding Examples.helpful) = 1536.
Proof. split; vm_compute; reflexivity. Qed.

(** * Further properties of the dispatcher *)

Section Rotation.

Import MultiModel.

(** The cursor after the call at position [k] of a run (k from 0). *)
Lemma calls_cursor inputs (self : t) w k o :
  _models self <> [] ->
  calls self w inputs !! k = Some o ->
  _models (self_after o) = _models self
  /\ _current_model (self_after o)
     = (_current_model self + Z.of_nat (S k)) mod Z.of_nat (length (_models self)).
Proof.
  intros Hne Hk.
  apply calls_lookup in Hk as (self_k & w_k & p & kw & _ & -> & Hmk & Hck);
    [| exact Hne].
  assert (Hne' : _models self_k <> []) by (rewrite Hmk; exact Hne).
  destruct (llm_model_func_cursor self_k p kw w_k Hne') as [Hm Hc].
  split; [congruence |]. rewrite Hc, Hmk. exact Hck.
Qed.

Lemma mod_add_cancel (c a b M : Z) :
  0 < M -> ((c + a) mod M = (c + b) mod M <-> a mod M = b mod M).
Proof.
  intros HM. split; intros H.
  - replace a with ((c + a) - c) by lia. replace b with ((c + b) - c) by lia.
    rewrite (Zminus_mod (c + a)), (Zminus_mod (c + b)). by rewrite H.
  - rewrite (Zplus_mod c a), (Zplus_mod c b). by rewrite H.
Qed.

(** Two calls of a run leave the same cursor exactly when their positions
    are congruent modulo the number of descriptors: each descriptor gets
    every M-th call and no other, whatever the calls pass and however they
    end. *)
Theorem rotation_is_periodic inputs (self : t) w (k1 k2 : nat) o1 o2 :
  _models self <> [] ->
  calls self w inputs !! k1 = Some o1 ->
  calls self w inputs !! k2 = Some o2 ->
  (_current_model (self_after o1) = _current_model (self_after o2)
   <-> (k1 mod length (_models self) = k2 mod length (_models self))%nat).
Proof.
  intros Hne H1 H2.
  destruct (calls_cursor _ _ _ _ _ Hne H1) as [_ ->].
  destruct (calls_cursor _ _ _ _ _ Hne H2) as [_ ->].
  assert (HM : 0 < Z.of_nat (length (_models self))).
  { destruct (_models self); [congruence | simpl; lia]. }
  rewrite mod_add_cancel by exact HM.
  rewrite !Nat2Z.inj_succ, <- !Z.add_1_l.
  rewrite mod_add_cancel by exact HM.
  rewrite <- !Nat2Z.inj_mod. split; [apply Nat2Z.inj | congruence].
Qed.

Lemma rotation_is_periodic_witness :
  [Examples.key0; Examples.key1] <> []
  /\ (_current_model
        (self_after (llm_model_func (__init__ [Examples.key0; Examples.key1])
                       Examples.hello ∅ Examples.w0))
      = _current_model
          (self_after (llm_model_func
                         {| _models := [Examples.key0; Examples.key1];
                            _current_model := 0 |}
                         Examples.hello ∅ Examples.w0))
      <-> (0 mod 2 = 2 mod 2)%nat).
Proof.
  split; [discriminate |].
  apply (rotation_is_periodic
           [(Examples.hello, ∅); (Examples.hello, ∅); (Examples.hello, ∅)]
           (__init__ [Examples.key0; Examples.key1]) Examples.w0 0%nat 2%nat);
    [discriminate | reflexivity | reflexivity].
Defined.

(** A call invokes at most one generation function and never a second
    descriptor: when one is invoked, what it returns or raises is the call's
    outcome and the world is the one it left; when none is invoked, the world
    is untouched and the call raised [ZeroDivisionError] (no descriptors) or
    [TypeError] (a keyword given twice). *)
Theorem dispatch_is_a_single_attempt (self : t) prompt kw w :
  (invoked (llm_model_func self prompt kw w) = []
   /\ world_after (llm_model_func self prompt kw w) = w
   /\ (returned (llm_model_func self prompt kw w) = Raise ZeroDivisionError
       /\ _models self = []
       \/ returned (llm_model_func self prompt kw w) = Raise TypeError))
  \/ (exists m args,
        invoked (llm_model_func self prompt kw w) = [(m, args)]
        /\ m ∈ _models self
        /\ (returned (llm_model_func self prompt kw w),
            world_after (llm_model_func self prompt kw w))
           = Model.gen_func m args w).
Proof.
  destruct (_models self) as [| m0 ms] eqn:Hmodels.
  - left. unfold llm_model_func.
    rewrite next_model_empty by exact Hmodels. cbn. auto.
  - assert (Hne : _models self <> []) by (rewrite Hmodels; discriminate).
    destruct (next_model_nonempty self Hne) as (m & Hnext & Hm).
    rewrite (llm_model_func_selected _ _ _ _ _ _ Hnext).
    destruct (bool_decide _).
    + right. exists m, (caller_arguments prompt kw ∪ Model.kwargs m).
      cbn [invoked returned world_after]. split; [reflexivity |]. split.
      * rewrite <- Hmodels. apply list_elem_of_lookup. eauto.
      * by destruct (Model.gen_func m _ w).
    + left. cbn. auto.
Qed.

(** What the generation function receives when the call proceeds: the
    prompt, the system prompt (or [None]) and the history (or the empty
    list) under their names, and every other option of the caller, apart
    from the three reserved keys, with the caller's value. *)
Theorem caller_options_pass_through (self : t) prompt kw w m args :
  invoked (llm_model_func self prompt kw w) = [(m, args)] ->
  args !! "prompt" = Some prompt
  /\ args !! "system_prompt" = Some (default PyNone (kw !! "system_prompt"))
  /\ args !! "history_messages"
     = Some (default (PyList []) (kw !! "history_messages"))
  /\ forall key v,
       key ∉ ["prompt"; "system_prompt"; "history_messages"] ->
       key ∉ reserved_keys ->
       kw !! key = Some v ->
       args !! key = Some v.
Proof.
  intros Hinv.
  destruct (_next_model self) as [[m' | e] self'] eqn:Hnext.
  2: { unfold llm_model_func in Hinv. rewrite Hnext in Hinv. discriminate. }
  rewrite (llm_model_func_selected _ _ _ _ _ _ Hnext) in Hinv.
  destruct (bool_decide _); [| discriminate].
  cbn [invoked] in Hinv. injection Hinv as -> <-.
  assert (Hl : forall key v, caller_arguments prompt kw !! key = Some v ->
                 (caller_arguments prompt kw ∪ Model.kwargs m) !! key = Some v).
  { intros key v. apply lookup_union_Some_l. }
  repeat split.
  - apply Hl. unfold caller_arguments. apply lookup_union_Some_l.
    unfold named_arguments. by rewrite !lookup_insert_ne, lookup_insert_eq by discriminate.
  - apply Hl. unfold caller_arguments. apply lookup_union_Some_l.
    unfold named_arguments. by rewrite lookup_insert_ne, lookup_insert_eq by discriminate.
  - apply Hl. unfold caller_arguments. apply lookup_union_Some_l.
    unfold named_arguments. by rewrite lookup_insert_eq.
  - intros key v Hn Hr Hkw. apply Hl. unfold caller_arguments.
    apply lookup_union_Some_raw. right. split.
    + apply eq_None_not_Some. by intros Hs%named_arguments_lookup.
    + unfold remaining_options, star_kwargs, reserved_keys in *. cbn [foldr].
      rewrite !not_elem_of_cons in Hn, Hr.
      destruct Hn as (? & ? & ? & _), Hr as (? & ? & ? & _).
      by rewrite !lookup_delete_ne by congruence.
Qed.

Lemma caller_options_pass_through_witness :
  invoked (llm_model_func (__init__ [Examples.key0]) Examples.hello
             {[ "temperature" := PyInt 1 ]} Examples.w0)
    = [(Examples.key0,
        caller_arguments Examples.hello {[ "temperature" := PyInt 1 ]}
          ∪ Model.kwargs Examples.key0)]
  /\ (caller_arguments Examples.hello {[ "temperature" := PyInt 1 ]}
        ∪ Model.kwargs Examples.key0) !! "prompt" = Some Examples.hello.
Proof.
  assert (H : invoked (llm_model_func (__init__ [Examples.key0]) Examples.hello
                         {[ "temperature" := PyInt 1 ]} Examples.w0)
              = [(Examples.key0,
                  caller_arguments Examples.hello {[ "temperature" := PyInt 1 ]}
                    ∪ Model.kwargs Examples.key0)]).
  { rewrite (llm_model_func_selected (__init__ [Examples.key0])
               {| _models := [Examples.key0]; _current_model := 0 |}
               Examples.key0 _ _ _ eq_refl).
    reflexivity. }
  split; [exact H |].
  exact (proj1 (caller_options_pass_through _ _ _ _ _ _ H)).
Defined.

End Rotation.

(** * Further properties of the adapters *)

Section Frames.

Context (openai : Provider).

(** The opening lines make no call and do not sleep, whatever their
    arguments and whether or not they raise. *)
Lemma azure_client_frame base_url api_key api_version w :
  sent (azure_client openai base_url api_key api_version w).2 = sent w
  /\ slept (azure_client openai base_url api_key api_version w).2 = slept w.
Proof.
  destruct w as [env s z].
  unfold azure_client, bind, os_environ_set, os_getenv, ret.
  destruct api_key, base_url, api_version; cbn [truthy environ sent slept];
    repeat match goal with
           | |- context [if ?b then _ else _] =>
               destruct b; cbn [environ sent slept fst snd]
           end;
    repeat match goal with
           | |- context [new_client ?o ?e ?c] =>
               destruct (new_client o e c); cbn [environ sent slept fst snd]
           end; split; reflexivity.
Qed.

(** One run of the completion body: no sleep, and at most one call, which
    carries the model, the built messages and the caller's options without
    [hashing_kv]. *)
Lemma complete_body_frame model prompt system_prompt history_messages
    base_url api_key api_version kwargs w :
  slept (azure_openai_complete_if_cache_body openai model prompt system_prompt
           history_messages base_url api_key api_version kwargs w).2 = slept w
  /\ (sent (azure_openai_complete_if_cache_body openai model prompt
              system_prompt history_messages base_url api_key api_version
              kwargs w).2 = sent w
      \/ exists rq messages,
           sent (azure_openai_complete_if_cache_body openai model prompt
                   system_prompt history_messages base_url api_key api_version
                   kwargs w).2 = sent w ++ [rq]
           /\ build_messages prompt system_prompt history_messages = Ok messages
           /\ req_call rq
              = ChatCompletionsCreate model messages (delete "hashing_kv" kwargs)).
Proof.
  unfold azure_openai_complete_if_cache_body, bind.
  destruct (azure_client_frame base_url api_key api_version w) as [Hs Hz].
  destruct (azure_client openai base_url api_key api_version w)
    as [[client | e] w1];
    cbn [snd] in Hs, Hz; [| cbn [snd]; auto].
  unfold lift.
  destruct (build_messages prompt system_prompt history_messages) as [ms | e];
    [| cbn [snd]; auto].
  unfold chat_create, chat_create_call, await_chat, bind.
  destruct (passed_twice _ _); [cbn [snd]; auto |].
  cbn [fst snd].
  destruct (chat_completions_create openai _ _) as [[[| c cs] | ch f] | e];
    cbn [snd sent slept raise ret]; (split; [exact Hz |]); right;
    eexists _, ms; rewrite Hs; repeat split; reflexivity.
Qed.

Lemma embedding_body_frame texts model base_url api_key api_version w :
  slept (azure_openai_embedding_body openai texts model base_url api_key
           api_version w).2 = slept w
  /\ (sent (azure_openai_embedding_body openai texts model base_url api_key
              api_version w).2 = sent w
      \/ exists rq,
           sent (azure_openai_embedding_body openai texts model base_url
                   api_key api_version w).2 = sent w ++ [rq]
           /\ req_call rq = EmbeddingsCreate model texts "float").
Proof.
  unfold azure_openai_embedding_body, bind.
  destruct (azure_client_frame base_url api_key api_version w) as [Hs Hz].
  destruct (azure_client openai base_url api_key api_version w)
    as [[client | e] w1];
    cbn [snd] in Hs, Hz; [| cbn [snd]; auto].
  unfold embed_create, lift.
  destruct (embeddings_create openai _ _) as [data | e];
    [destruct (np_array _) |];
    cbn [snd sent slept]; (split; [exact Hz |]); right;
    eexists; rewrite Hs; split; reflexivity.
Qed.

Lemma stream_body_frame model prompt system_prompt history_messages
    base_url api_key api_version kwargs w :
  slept (azure_openai_complete_if_cache_stream_body openai model prompt
           system_prompt history_messages base_url api_key api_version
           kwargs w).2 = slept w
  /\ (sent (azure_openai_complete_if_cache_stream_body openai model prompt
              system_prompt history_messages base_url api_key api_version
              kwargs w).2 = sent w
      \/ exists rq messages,
           sent (azure_openai_complete_if_cache_stream_body openai model prompt
                   system_prompt history_messages base_url api_key api_version
                   kwargs w).2 = sent w ++ [rq]
           /\ build_messages prompt system_prompt history_messages = Ok messages
           /\ req_call rq
              = ChatCompletionsCreate model messages
                  (<["stream" := PyBool true]> (delete "hashing_kv" kwargs))).
Proof.
  unfold azure_openai_complete_if_cache_stream_body, bind.
  destruct (azure_client_frame base_url api_key api_version w) as [Hs Hz].
  destruct (azure_client openai base_url api_key api_version w)
    as [[client | e] w1];
    cbn [snd] in Hs, Hz; [| cbn [snd]; auto].
  unfold lift.
  destruct (build_messages prompt system_prompt history_messages) as [ms | e];
    [| cbn [snd]; auto].
  unfold chat_create_call.
  destruct (passed_twice _ _); cbn [snd sent slept]; [auto |].
  split; [exact Hz |]. right.
  eexists _, ms. rewrite Hs. repeat split; reflexivity.
Qed.

End Frames.

Section RetryFrames.

Context {A : Type}.

(** A property of every request a run may send holds of every request the
    decorated function sends. *)
Lemma retry_requests (P : request -> Prop) (fn : Py A) w :
  (forall w1,
      sent (fn w1).2 = sent w1
      \/ exists rq, sent (fn w1).2 = sent w1 ++ [rq] /\ P rq) ->
  Forall P (drop (length (sent w))
              (sent (tenacity.retry max_attempts retry_policy fn w).2)).
Proof.
  intros Hfn.
  assert (H : exists new,
             sent (tenacity.retry max_attempts retry_policy fn w).2 = sent w ++ new
             /\ Forall P new).
  { apply (retry_invariant
             (fun w1 => exists new, sent w1 = sent w ++ new /\ Forall P new)
             (fun w1 => exists new, sent w1 = sent w ++ new /\ Forall P new)).
    - intros w1 (new & Hs & Hall).
      destruct (Hfn w1) as [-> | (rq & -> & Hrq)]; [by exists new |].
      exists (new ++ [rq]). rewrite Hs, app_assoc. split; [reflexivity |].
      apply Forall_app. split; [exact Hall | by constructor].
    - auto.
    - intros d w1 H. exact H.
    - exists []. by rewrite app_nil_r. }
  destruct H as (new & -> & Hall). by rewrite drop_app_length.
Qed.

(** The loop runs a function that never sleeps and sends at most one request
    per run at most three times, with a sleep of 4 before each further run. *)
Lemma retry_bounded (fn : Py A) w :
  (forall w1,
      slept (fn w1).2 = slept w1
      /\ (length (sent (fn w1).2) <= S (length (sent w1)))%nat) ->
  exists k,
    (k <= 2)%nat
    /\ slept (tenacity.retry max_attempts retry_policy fn w).2
       = slept w ++ repeat 4 k
    /\ (length (sent (tenacity.retry max_attempts retry_policy fn w).2)
        <= length (sent w) + S k)%nat.
Proof.
  intros Hfn. unfold tenacity.retry, max_attempts. cbn [tenacity.iter].
  destruct (Hfn w) as [Hz1 Hs1].
  destruct (fn w) as [[a | e1] w1]; cbn [snd] in Hz1, Hs1.
  { exists 0%nat. cbn [snd repeat]. rewrite app_nil_r. repeat split; [lia | done | lia]. }
  destruct (tenacity.retry_on retry_policy e1).
  2: { exists 0%nat. cbn [snd repeat]. rewrite app_nil_r. repeat split; [lia | done | lia]. }
  cbn [tenacity.stop retry_policy tenacity.stop_after_attempt Z.leb Z.compare
       Pos.compare Pos.compare_cont tenacity.wait].
  change (tenacity.wait_exponential 1 4 10 1) with 4.
  destruct (Hfn (sleep 4 w1).2) as [Hz2 Hs2].
  destruct (fn (sleep 4 w1).2) as [[a | e2] w2];
    cbn [sleep snd sent slept] in Hz2, Hs2.
  { exists 1%nat. cbn [snd repeat]. rewrite Hz2, Hz1. repeat split; [lia | lia]. }
  destruct (tenacity.retry_on retry_policy e2).
  2: { exists 1%nat. cbn [snd repeat]. rewrite Hz2, Hz1. repeat split; [lia | lia]. }
  change (tenacity.wait_exponential 1 4 10 (1 + 1)) with 4.
  change (tenacity.stop_after_attempt 3 (1 + 1)) with false.
  change (tenacity.stop_after_attempt 3 (1 + 1 + 1)) with true.
  cbv iota.
  destruct (Hfn (sleep 4 w2).2) as [Hz3 Hs3].
  destruct (fn (sleep 4 w2).2) as [[a | e3] w3];
    cbn [sleep snd sent slept] in Hz3, Hs3.
  { exists 2%nat. cbn [snd repeat]. rewrite Hz3, Hz2, Hz1, <- app_assoc.
    repeat split; [lia | lia]. }
  exists 2%nat.
  destruct (tenacity.retry_on retry_policy e3);
    cbn [snd repeat]; rewrite Hz3, Hz2, Hz1, <- app_assoc;
    repeat split; lia.
Qed.

(** After a first run that failed with a transient error, a second run that
    does not fail with a transient error decides the outcome. *)
Lemma retry_second_run_decides (fn : Py A) w e1 w1 :
  fn w = (Raise e1, w1) ->
  is_transient e1 ->
  (forall e2, (fn (sleep 4 w1).2).1 = Raise e2 -> ~ is_transient e2) ->
  tenacity.retry max_attempts retry_policy fn w = fn (sleep 4 w1).2.
Proof.
  intros H1 T1 H2. unfold tenacity.retry, max_attempts. cbn [tenacity.iter].
  rewrite H1, (proj2 (is_transient_retry_on e1) T1).
  cbn [tenacity.stop retry_policy tenacity.stop_after_attempt Z.leb Z.compare
       Pos.compare Pos.compare_cont tenacity.wait].
  change (tenacity.wait_exponential 1 4 10 1) with 4.
  destruct (fn (sleep 4 w1).2) as [[a | e2] w2]; [reflexivity |].
  cbn [fst] in H2.
  destruct (tenacity.retry_on retry_policy e2) eqn:E; [| reflexivity].
  apply is_transient_retry_on in E. by destruct (H2 e2 eq_refl).
Qed.

End RetryFrames.

Section Requests.

Context (openai : Provider).

Lemma complete_requests_frame model prompt system_prompt
    history_messages base_url api_key api_version kwargs w :
  Forall (fun rq =>
            exists messages,
              build_messages prompt system_prompt history_messages = Ok messages
              /\ req_call rq
                 = ChatCompletionsCreate model messages
                     (delete "hashing_kv" kwargs))
    (drop (length (sent w))
       (sent (azure_openai_complete_if_cache openai model prompt system_prompt
                history_messages base_url api_key api_version kwargs w).2)).
Proof.
  unfold azure_openai_complete_if_cache. apply retry_requests. intros w1.
  destruct (complete_body_frame openai model prompt system_prompt
              history_messages base_url api_key api_version kwargs w1)
    as [_ [Hs | (rq & ms & Hs & Hm & Hrq)]]; [by left |].
  right. exists rq. split; [exact Hs |]. by exists ms.
Qed.

(** Every request [azure_openai_complete_if_cache] sends, on any attempt,
    names the model it was given and carries the built message list and the
    caller's options as they are, except [hashing_kv], which is dropped. *)
Theorem complete_requests_carry_options model prompt system_prompt
    history_messages base_url api_key api_version kwargs w :
  Forall (fun rq =>
            exists messages,
              build_messages prompt system_prompt history_messages = Ok messages
              /\ req_call rq
                 = ChatCompletionsCreate model messages
                     (delete "hashing_kv" kwargs))
    (drop (length (sent w))
       (sent (azure_openai_complete_if_cache openai model prompt system_prompt
                history_messages base_url api_key api_version kwargs w).2)).
Proof.
  unfold azure_openai_complete_if_cache. apply retry_requests. intros w1.
  destruct (complete_body_frame openai model prompt system_prompt
              history_messages base_url api_key api_version kwargs w1)
    as [_ [Hs | (rq & ms & Hs & Hm & Hrq)]]; [by left |].
  right. exists rq. split; [exact Hs |]. by exists ms.
Qed.

(** Whatever the arguments and the provider, one call of
    [azure_openai_complete_if_cache] sends at most three requests and sleeps
    at most twice, 4 each time: the cap of 10 is never reached. *)
Theorem complete_attempts_are_bounded model prompt system_prompt
    history_messages base_url api_key api_version kwargs w :
  exists k,
    (k <= 2)%nat
    /\ slept (azure_openai_complete_if_cache openai model prompt system_prompt
                history_messages base_url api_key api_version kwargs w).2
       = slept w ++ repeat 4 k
    /\ (length (sent (azure_openai_complete_if_cache openai model prompt
                        system_prompt history_messages base_url api_key
                        api_version kwargs w).2)
        <= length (sent w) + S k)%nat.
Proof.
  unfold azure_openai_complete_if_cache. apply retry_bounded. intros w1.
  destruct (complete_body_frame openai model prompt system_prompt
              history_messages base_url api_key api_version kwargs w1)
    as [Hz [Hs | (rq & ms & Hs & _)]]; (split; [exact Hz |]); rewrite Hs.
  - lia.
  - rewrite length_app. cbn. lia.
Qed.

(** Every request [azure_openai_embedding] sends carries the whole list of
    texts, in order, for the model given, with the [float] encoding; and one
    call sends at most three of them, with at most two sleeps of 4. *)
Theorem embedding_requests_carry_all_texts texts model base_url api_key
    api_version w :
  Forall (fun rq => req_call rq = EmbeddingsCreate model texts "float")
    (drop (length (sent w))
       (sent (func (azure_openai_embedding openai) texts model base_url
                api_key api_version w).2))
  /\ exists k,
       (k <= 2)%nat
       /\ slept (func (azure_openai_embedding openai) texts model base_url
                   api_key api_version w).2
          = slept w ++ repeat 4 k
       /\ (length (sent (func (azure_openai_embedding openai) texts model
                           base_url api_key api_version w).2)
           <= length (sent w) + S k)%nat.
Proof.
  cbn [azure_openai_embedding wrap_embedding_func_with_attrs func]. split.
  - apply retry_requests. intros w1.
    destruct (embedding_body_frame openai texts model base_url api_key
                api_version w1) as [_ [Hs | (rq & Hs & Hrq)]]; [by left |].
    right. by exists rq.
  - apply retry_bounded. intros w1.
    destruct (embedding_body_frame openai texts model base_url api_key
                api_version w1) as [Hz [Hs | (rq & Hs & _)]];
      (split; [exact Hz |]); rewrite Hs.
    + lia.
    + rewrite length_app. cbn. lia.
Qed.

(** The streaming call never sleeps and makes at most one call of [create]
    (which it does not await); that call asks for a stream whatever the
    caller passed under [stream], never carries [hashing_kv], and carries
    every other option of the caller as it is. *)
Theorem stream_sends_one_streaming_request model prompt system_prompt
    history_messages base_url api_key api_version kwargs w :
  slept (stream_call openai model prompt system_prompt history_messages
           base_url api_key api_version kwargs w).2 = slept w
  /\ (sent (stream_call openai model prompt system_prompt history_messages
              base_url api_key api_version kwargs w).2 = sent w
      \/ exists rq messages options,
           sent (stream_call openai model prompt system_prompt
                   history_messages base_url api_key api_version kwargs w).2
             = sent w ++ [rq]
           /\ req_call rq = ChatCompletionsCreate model messages options
           /\ options !! "stream" = Some (PyBool true)
           /\ options !! "hashing_kv" = None
           /\ forall key, key <> "stream" -> key <> "hashing_kv" ->
                options !! key = kwargs !! key).
Proof.
  change (stream_call openai model prompt system_prompt history_messages
            base_url api_key api_version kwargs w)
    with (azure_openai_complete_if_cache_stream_body openai model prompt
            system_prompt history_messages base_url api_key api_version kwargs w).
  destruct (stream_body_frame openai model prompt system_prompt
              history_messages base_url api_key api_version kwargs w)
    as [Hz [Hs | (rq & ms & Hs & _ & Hrq)]]; (split; [exact Hz |]); [by left |].
  right. exists rq, ms, (<["stream" := PyBool true]> (delete "hashing_kv" kwargs)).
  split; [exact Hs |]. split; [exact Hrq |]. split; [apply lookup_insert_eq |].
  split.
  - rewrite lookup_insert_ne by discriminate. apply lookup_delete_eq.
  - intros key H1 H2. by rewrite lookup_insert_ne, lookup_delete_ne by congruence.
Qed.

End Requests.

Section Outcomes.

Context (openai : Provider).
Context (base_url api_key api_version : pyval).
Context (Hurl : str_or_none base_url) (Hkey : str_or_none api_key)
        (Hver : str_or_none api_version).

(** The request of a later attempt is the request of the first one: the
    overrides are already in the environment. *)
Lemma chat_request_again model messages options rq d w :
  chat_request model messages base_url api_key api_version options
    (sleep d (after_request base_url api_key api_version rq w)).2
  = chat_request model messages base_url api_key api_version options w.
Proof.
  unfold chat_request. cbn [sleep snd after_request environ].
  by rewrite azure_environ_idem.
Qed.

(** Options that name neither [model] nor [messages] repeat no keyword of
    the call of [create]. *)
Lemma no_repeated_keyword (kwargs : gmap string pyval) :
  kwargs !! "model" = None ->
  kwargs !! "messages" = None ->
  passed_twice ["model"; "messages"] (delete "hashing_kv" kwargs) = false.
Proof.
  intros H1 H2. unfold passed_twice. cbn [existsb].
  rewrite !lookup_delete_ne by discriminate. rewrite H1, H2.
  rewrite bool_decide_eq_false_2 by (by intros [x Hx]). reflexivity.
Qed.

(** A completion answered at the first attempt, when the client is accepted
    and no option repeats a keyword of [create]: the content of the first
    choice is returned, after one request and no sleep. *)
Theorem complete_returns_first_choice model prompt system_prompt
    history_messages kwargs messages choice others w :
  client_accepted openai base_url api_key api_version w ->
  kwargs !! "model" = None ->
  kwargs !! "messages" = None ->
  build_messages prompt system_prompt history_messages = Ok messages ->
  chat_completions_create openai (length (sent w))
    (chat_request model messages base_url api_key api_version
       (delete "hashing_kv" kwargs) w)
    = Ok (Completion (choice :: others)) ->
  azure_openai_complete_if_cache openai model prompt system_prompt
    history_messages base_url api_key api_version kwargs w
  = (Ok (message_content choice),
     after_request base_url api_key api_version
       (chat_request model messages base_url api_key api_version
          (delete "hashing_kv" kwargs) w) w).
Proof.
  intros Hc Hk1 Hk2 Hm Hanswer. unfold azure_openai_complete_if_cache.
  pose proof (no_repeated_keyword kwargs Hk1 Hk2) as Hk.
  rewrite (retry_success_once _ w (message_content choice));
    rewrite (complete_body_run openai _ _ _ Hurl Hkey Hver _ _ _ _ _ _ _ Hc Hm Hk);
    cbv zeta; rewrite Hanswer; reflexivity.
Qed.

(** A transient error at the first attempt and a completion at the second,
    when the client is accepted and no option repeats a keyword of
    [create]: the call returns the completion, after two identical requests
    and a single sleep of 4. *)
Theorem complete_recovers_on_second_attempt model prompt system_prompt
    history_messages kwargs messages e choice others w :
  client_accepted openai base_url api_key api_version w ->
  kwargs !! "model" = None ->
  kwargs !! "messages" = None ->
  build_messages prompt system_prompt history_messages = Ok messages ->
  is_transient e ->
  chat_completions_create openai (length (sent w))
    (chat_request model messages base_url api_key api_version
       (delete "hashing_kv" kwargs) w) = Raise e ->
  chat_completions_create openai (S (length (sent w)))
    (chat_request model messages base_url api_key api_version
       (delete "hashing_kv" kwargs) w) = Ok (Completion (choice :: others)) ->
  azure_openai_complete_if_cache openai model prompt system_prompt
    history_messages base_url api_key api_version kwargs w
  = (Ok (message_content choice),
     {| environ := azure_environ base_url api_key api_version (environ w);
        sent := sent w
                ++ [chat_request model messages base_url api_key api_version
                      (delete "hashing_kv" kwargs) w;
                    chat_request model messages base_url api_key api_version
                      (delete "hashing_kv" kwargs) w];
        slept := slept w ++ [4] |}).
Proof.
  intros Hc Hk1 Hk2 Hm He H1 H2. unfold azure_openai_complete_if_cache.
  pose proof (no_repeated_keyword kwargs Hk1 Hk2) as Hk.
  set (rq := chat_request model messages base_url api_key api_version
               (delete "hashing_kv" kwargs) w) in *.
  assert (Hfirst :
            azure_openai_complete_if_cache_body openai model prompt
              system_prompt history_messages base_url api_key api_version
              kwargs w
            = (Raise e, after_request base_url api_key api_version rq w)).
  { rewrite (complete_body_run openai _ _ _ Hurl Hkey Hver _ _ _ _ _ _ _ Hc Hm Hk).
    cbv zeta. fold rq. by rewrite H1. }
  assert (Hsecond :
            azure_openai_complete_if_cache_body openai model prompt
              system_prompt history_messages base_url api_key api_version
              kwargs (sleep 4 (after_request base_url api_key api_version rq w)).2
            = (Ok (message_content choice),
               {| environ := azure_environ base_url api_key api_version (environ w);
                  sent := sent w ++ [rq; rq];
                  slept := slept w ++ [4] |})).
  { rewrite (complete_body_run openai _ _ _ Hurl Hkey Hver _ _ _ _ _ _ _
               (client_accepted_again openai _ _ _ rq 4 w Hc) Hm Hk).
    cbv zeta. rewrite chat_request_again. fold rq.
    unfold after_request. cbn [sleep snd sent slept environ].
    rewrite length_app, Nat.add_1_r, H2, azure_environ_idem, <- app_assoc.
    reflexivity. }
  rewrite (retry_second_run_decides _ w e _ Hfirst He); [exact Hsecond |].
  intros e2. rewrite Hsecond. discriminate.
Qed.

(** A transient error at the first attempt and an error of another kind at
    the second, when the client is accepted and no option repeats a keyword
    of [create]: that second error is raised as it is, not wrapped in
    [RetryError], after two requests and a single sleep of 4. *)
Theorem complete_gives_up_on_other_error model prompt system_prompt
    history_messages kwargs messages e e2 w :
  client_accepted openai base_url api_key api_version w ->
  kwargs !! "model" = None ->
  kwargs !! "messages" = None ->
  build_messages prompt system_prompt history_messages = Ok messages ->
  is_transient e ->
  ~ is_transient e2 ->
  chat_completions_create openai (length (sent w))
    (chat_request model messages base_url api_key api_version
       (delete "hashing_kv" kwargs) w) = Raise e ->
  chat_completions_create openai (S (length (sent w)))
    (chat_request model messages base_url api_key api_version
       (delete "hashing_kv" kwargs) w) = Raise e2 ->
  azure_openai_complete_if_cache openai model prompt system_prompt
    history_messages base_url api_key api_version kwargs w
  = (Raise e2,
     {| environ := azure_environ base_url api_key api_version (environ w);
        sent := sent w
                ++ [chat_request model messages base_url api_key api_version
                      (delete "hashing_kv" kwargs) w;
                    chat_request model messages base_url api_key api_version
                      (delete "hashing_kv" kwargs) w];
        slept := slept w ++ [4] |}).
Proof.
  intros Hc Hk1 Hk2 Hm He Hne H1 H2. unfold azure_openai_complete_if_cache.
  pose proof (no_repeated_keyword kwargs Hk1 Hk2) as Hk.
  set (rq := chat_request model messages base_url api_key api_version
               (delete "hashing_kv" kwargs) w) in *.
  assert (Hfirst :
            azure_openai_complete_if_cache_body openai model prompt
              system_prompt history_messages base_url api_key api_version
              kwargs w
            = (Raise e, after_request base_url api_key api_version rq w)).
  { rewrite (complete_body_run openai _ _ _ Hurl Hkey Hver _ _ _ _ _ _ _ Hc Hm Hk).
    cbv zeta. fold rq. by rewrite H1. }
  assert (Hsecond :
            azure_openai_complete_if_cache_body openai model prompt
              system_prompt history_messages base_url api_key api_version
              kwargs (sleep 4 (after_request base_url api_key api_version rq w)).2
            = (Raise e2,
               {| environ := azure_environ base_url api_key api_version (environ w);
                  sent := sent w ++ [rq; rq];
                  slept := slept w ++ [4] |})).
  { rewrite (complete_body_run openai _ _ _ Hurl Hkey Hver _ _ _ _ _ _ _
               (client_accepted_again openai _ _ _ rq 4 w Hc) Hm Hk).
    cbv zeta. rewrite chat_request_again. fold rq.
    unfold after_request. cbn [sleep snd sent slept environ].
    rewrite length_app, Nat.add_1_r, H2, azure_environ_idem, <- app_assoc.
    reflexivity. }
  rewrite (retry_second_run_decides _ w e _ Hfirst He); [exact Hsecond |].
  intros e3. rewrite Hsecond. cbn [fst]. by intros [= <-].
Qed.

(** When the client is accepted, a history that cannot be iterated (such as
    [None]) raises [TypeError] from [messages.extend], after the overrides
    were written and the client was built: no request is sent, nothing is
    retried, and the environment is already changed. *)
Theorem complete_rejects_bad_history model prompt system_prompt
    history_messages kwargs e w :
  client_accepted openai base_url api_key api_version w ->
  py_iter history_messages = Raise e ->
  e = TypeError
  /\ azure_openai_complete_if_cache openai model prompt system_prompt
       history_messages base_url api_key api_version kwargs w
     = (Raise TypeError,
        {| environ := azure_environ base_url api_key api_version (environ w);
           sent := sent w; slept := slept w |}).
Proof.
  intros Hc Hiter.
  assert (He : e = TypeError).
  { destruct history_messages; cbn in Hiter; congruence. }
  subst e. split; [reflexivity |].
  assert (Hm : build_messages prompt system_prompt history_messages
               = Raise TypeError).
  { unfold build_messages. by rewrite Hiter. }
  unfold azure_openai_complete_if_cache.
  rewrite (retry_other_error_once _ w TypeError);
    rewrite ?(complete_body_no_messages openai _ _ _ Hurl Hkey Hver _ _ _ _ _ _ _ Hc Hm);
    try reflexivity.
  intros [H | [H | H]]; discriminate.
Qed.

End Outcomes.

Section Guards.

Context (openai : Provider).

(** An override that is set but is not a string raises [TypeError] when it
    is written.  With a valid [api_key] and such a [base_url] the call fails
    before any request and without retry, and the key written first stays in
    the environment. *)
Theorem failed_override_keeps_earlier_write model prompt system_prompt
    history_messages (s : string) base_url api_version kwargs w :
  s <> EmptyString ->
  truthy base_url = true ->
  (forall t, base_url <> PyStr t) ->
  azure_openai_complete_if_cache openai model prompt system_prompt
    history_messages base_url (PyStr s) api_version kwargs w
  = (Raise TypeError,
     {| environ := <["AZURE_OPENAI_API_KEY" := s]> (environ w);
        sent := sent w; slept := slept w |}).
Proof.
  intros Hs Htrue Hnot.
  assert (Hbody :
            azure_openai_complete_if_cache_body openai model prompt
              system_prompt history_messages base_url (PyStr s) api_version
              kwargs w
            = (Raise TypeError,
               {| environ := <["AZURE_OPENAI_API_KEY" := s]> (environ w);
                  sent := sent w; slept := slept w |})).
  { unfold azure_openai_complete_if_cache_body, azure_client, bind.
    cbn [truthy]. destruct (String.eqb_spec s ""); [congruence |].
    cbn [negb os_environ_set]. rewrite Htrue.
    destruct base_url; try reflexivity. by destruct (Hnot s0). }
  unfold azure_openai_complete_if_cache.
  rewrite (retry_other_error_once _ w TypeError); rewrite ?Hbody; try reflexivity.
  intros [H | [H | H]]; discriminate.
Qed.

(** [azure_openai_complete] fixes the model: a [model] keyword raises
    [TypeError] before anything is written or sent. *)
Theorem complete_rejects_model_keyword prompt kw v w :
  kw !! "model" = Some v ->
  azure_openai_complete openai prompt kw w = (Raise TypeError, w).
Proof.
  intros Hmodel. rewrite complete_returns_raw_completion. cbv zeta.
  unfold passed_twice, star_kwargs. cbn [existsb foldr].
  rewrite !lookup_delete_ne by discriminate. rewrite Hmodel.
  by rewrite bool_decide_eq_true_2 by eauto.
Qed.

(** Every request [azure_openai_complete] sends is for [gpt-4o], and its
    options are the caller's keywords without the ones the two signatures
    bind: the prompt, system prompt and history, the extraction flag, the
    endpoint, key and version, and [hashing_kv].  Credentials passed as
    keywords never travel as request options. *)
Theorem complete_never_forwards_bound_keywords prompt kw w :
  Forall (fun rq =>
            exists messages options,
              req_call rq
                = ChatCompletionsCreate (PyStr "gpt-4o") messages options
              /\ (forall key,
                    key ∈ ["prompt"; "system_prompt"; "history_messages";
                           "keyword_extraction"; "base_url"; "api_key";
                           "api_version"; "hashing_kv"] ->
                    options !! key = None)
              /\ (forall key,
                    key ∉ ["prompt"; "system_prompt"; "history_messages";
                           "keyword_extraction"; "base_url"; "api_key";
                           "api_version"; "hashing_kv"] ->
                    options !! key = kw !! key))
    (drop (length (sent w)) (sent (azure_openai_complete openai prompt kw w).2)).
Proof.
  rewrite complete_returns_raw_completion. cbv zeta.
  destruct (passed_twice _ _).
  { cbn [raise snd]. rewrite drop_all. constructor. }
  eapply Forall_impl; [apply complete_requests_frame |].
  intros rq (ms & _ & Hrq). cbn beta in Hrq.
  eexists ms, _. split; [exact Hrq |].
  unfold star_kwargs. cbn [foldr]. split.
  - intros key Hin.
    repeat (apply elem_of_cons in Hin as [-> | Hin]);
      [| | | | | | | | by apply elem_of_nil in Hin];
      repeat first [ apply lookup_delete_eq
                   | rewrite lookup_delete_ne by discriminate ].
  - intros key Hnot. rewrite !not_elem_of_cons in Hnot.
    destruct Hnot as (? & ? & ? & ? & ? & ? & ? & ? & _).
    by rewrite !lookup_delete_ne by congruence.
Qed.

(** The streaming counterpart yields the same stream whatever the caller
    passes as [keyword_extraction]. *)
Theorem complete_stream_ignores_flag prompt kw flag w :
  agen_run (azure_openai_complete_stream openai prompt
              (<["keyword_extraction" := flag]> kw)) w
  = agen_run (azure_openai_complete_stream openai prompt
                (delete "keyword_extraction" kw)) w.
Proof.
  unfold azure_openai_complete_stream. cbn [agen_run]. cbv zeta.
  assert (Hstar : star_kwargs ["prompt"; "system_prompt"; "history_messages";
                               "keyword_extraction"]
                    (<["keyword_extraction" := flag]> kw)
                  = star_kwargs ["prompt"; "system_prompt"; "history_messages";
                                 "keyword_extraction"]
                      (delete "keyword_extraction" kw)).
  { unfold star_kwargs. cbn [foldr].
    by rewrite delete_insert_eq, delete_delete_eq. }
  rewrite Hstar.
  rewrite !(lookup_insert_ne kw), !(lookup_delete_ne kw) by discriminate.
  reflexivity.
Qed.

End Guards.

Lemma failed_override_keeps_earlier_write_witness :
  "secret" <> EmptyString
  /\ truthy (PyInt 8080) = true
  /\ environ
       (azure_openai_complete_if_cache Examples.helpful (PyStr "gpt-4o")
          Examples.hello PyNone (PyList []) (PyInt 8080) (PyStr "secret")
          PyNone ∅ Examples.w0).2
     = {[ "AZURE_OPENAI_API_KEY" := "secret" ]}.
Proof.
  split; [discriminate |]. split; [reflexivity |].
  rewrite (failed_override_keeps_earlier_write Examples.helpful (PyStr "gpt-4o")
             Examples.hello PyNone (PyList []) "secret" (PyInt 8080) PyNone ∅
             Examples.w0);
    [reflexivity | discriminate | reflexivity | discriminate].
Defined.

Lemma complete_rejects_model_keyword_witness :
  ({[ "model" := PyStr "gpt-4" ]} : gmap string pyval) !! "model"
    = Some (PyStr "gpt-4")
  /\ azure_openai_complete Examples.helpful Examples.hello
       {[ "model" := PyStr "gpt-4" ]} Examples.w0
     = (Raise TypeError, Examples.w0).
Proof.
  split; [reflexivity |].
  exact (complete_rejects_model_keyword Examples.helpful Examples.hello
           {[ "model" := PyStr "gpt-4" ]} (PyStr "gpt-4") Examples.w0 eq_refl).
Defined.

Lemma wait_bounds_witness :
  1 <= 2
  /\ 4 <= tenacity.wait retry_policy 2 <= 10
  /\ tenacity.wait retry_policy 2 <= tenacity.wait retry_policy (2 + 1).
Proof. split; [lia |]. apply (wait_bounds 2). lia. Defined.

Lemma complete_returns_first_choice_witness :
  str_or_none PyNone
  /\ client_accepted (Examples.scripted [Ok Examples.greeting])
       PyNone PyNone PyNone Examples.configured
  /\ (∅ : gmap string pyval) !! "messages" = None
  /\ build_messages Examples.hello PyNone (PyList [])
     = Ok [PyDict [("role", PyStr "user"); ("content", Examples.hello)]]
  /\ (azure_openai_complete_if_cache (Examples.scripted [Ok Examples.greeting])
        (PyStr "gpt-4o") Examples.hello PyNone (PyList []) PyNone PyNone
        PyNone ∅ Examples.configured).1
     = Ok (PyStr "Hi there").
Proof.
  assert (Hk1 : (∅ : gmap string pyval) !! "model" = None) by reflexivity.
  assert (Hk2 : (∅ : gmap string pyval) !! "messages" = None) by reflexivity.
  assert (H0 : str_or_none PyNone) by (by left).
  assert (Hc : client_accepted (Examples.scripted [Ok Examples.greeting])
                 PyNone PyNone PyNone Examples.configured) by reflexivity.
  split; [exact H0 |]. split; [exact Hc |]. split; [reflexivity |].
  split; [reflexivity |].
  rewrite (complete_returns_first_choice
             (Examples.scripted [Ok Examples.greeting]) PyNone PyNone PyNone
             H0 H0 H0 (PyStr "gpt-4o") Examples.hello PyNone (PyList []) ∅
             _ _ _ Examples.configured Hc Hk1 Hk2 eq_refl eq_refl).
  reflexivity.
Defined.

Lemma complete_recovers_on_second_attempt_witness :
  str_or_none PyNone
  /\ client_accepted
       (Examples.scripted [Raise RateLimitError; Ok Examples.greeting])
       PyNone PyNone PyNone Examples.configured
  /\ (∅ : gmap string pyval) !! "messages" = None
  /\ is_transient RateLimitError
  /\ (azure_openai_complete_if_cache
        (Examples.scripted [Raise RateLimitError; Ok Examples.greeting])
        (PyStr "gpt-4o") Examples.hello PyNone (PyList []) PyNone PyNone
        PyNone ∅ Examples.configured).1
     = Ok (PyStr "Hi there")
  /\ slept (azure_openai_complete_if_cache
              (Examples.scripted [Raise RateLimitError; Ok Examples.greeting])
              (PyStr "gpt-4o") Examples.hello PyNone (PyList []) PyNone PyNone
              PyNone ∅ Examples.configured).2
     = [4].
Proof.
  assert (Hk1 : (∅ : gmap string pyval) !! "model" = None) by reflexivity.
  assert (Hk2 : (∅ : gmap string pyval) !! "messages" = None) by reflexivity.
  assert (H0 : str_or_none PyNone) by (by left).
  assert (Hc : client_accepted
                 (Examples.scripted [Raise RateLimitError; Ok Examples.greeting])
                 PyNone PyNone PyNone Examples.configured) by reflexivity.
  assert (H1 : is_transient RateLimitError) by (by left).
  split; [exact H0 |]. split; [exact Hc |]. split; [reflexivity |].
  split; [exact H1 |].
  rewrite (complete_recovers_on_second_attempt
             (Examples.scripted [Raise RateLimitError; Ok Examples.greeting])
             PyNone PyNone PyNone H0 H0 H0 (PyStr "gpt-4o") Examples.hello
             PyNone (PyList []) ∅ _ RateLimitError _ _ Examples.configured
             Hc Hk1 Hk2 eq_refl H1 eq_refl eq_refl).
  split; reflexivity.
Defined.

Lemma complete_gives_up_on_other_error_witness :
  str_or_none PyNone
  /\ client_accepted
       (Examples.scripted [Raise Timeout; Raise (ProviderError 401)])
       PyNone PyNone PyNone Examples.configured
  /\ (∅ : gmap string pyval) !! "messages" = None
  /\ is_transient Timeout
  /\ ~ is_transient (ProviderError 401)
  /\ (azure_openai_complete_if_cache
        (Examples.scripted [Raise Timeout; Raise (ProviderError 401)])
        (PyStr "gpt-4o") Examples.hello PyNone (PyList []) PyNone PyNone
        PyNone ∅ Examples.configured).1
     = Raise (ProviderError 401).
Proof.
  assert (Hk1 : (∅ : gmap string pyval) !! "model" = None) by reflexivity.
  assert (Hk2 : (∅ : gmap string pyval) !! "messages" = None) by reflexivity.
  assert (H0 : str_or_none PyNone) by (by left).
  assert (Hc : client_accepted
                 (Examples.scripted [Raise Timeout; Raise (ProviderError 401)])
                 PyNone PyNone PyNone Examples.configured) by reflexivity.
  assert (H1 : is_transient Timeout) by (right; by right).
  assert (H2 : ~ is_transient (ProviderError 401)).
  { intros [H | [H | H]]; discriminate. }
  split; [exact H0 |]. split; [exact Hc |]. split; [reflexivity |].
  split; [exact H1 |]. split; [exact H2 |].
  rewrite (complete_gives_up_on_other_error
             (Examples.scripted [Raise Timeout; Raise (ProviderError 401)])
             PyNone PyNone PyNone H0 H0 H0 (PyStr "gpt-4o") Examples.hello
             PyNone (PyList []) ∅ _ Timeout (ProviderError 401)
             Examples.configured Hc Hk1 Hk2 eq_refl H1 H2
             eq_refl eq_refl).
  reflexivity.
Defined.

Lemma complete_rejects_bad_history_witness :
  str_or_none PyNone
  /\ client_accepted Examples.helpful PyNone PyNone PyNone Examples.configured
  /\ py_iter PyNone = Raise TypeError
  /\ azure_openai_complete_if_cache Examples.helpful (PyStr "gpt-4o")
       Examples.hello PyNone PyNone PyNone PyNone PyNone ∅ Examples.configured
     = (Raise TypeError, Examples.configured).
Proof.
  assert (H0 : str_or_none PyNone) by (by left).
  assert (Hc : client_accepted Examples.helpful PyNone PyNone PyNone
                 Examples.configured) by reflexivity.
  split; [exact H0 |]. split; [exact Hc |]. split; [reflexivity |].
  exact (proj2 (complete_rejects_bad_history Examples.helpful
                  PyNone PyNone PyNone H0 H0 H0 (PyStr "gpt-4o") Examples.hello
                  PyNone PyNone ∅ TypeError Examples.configured Hc eq_refl)).
Defined.

(** * The dispatcher over the adapter *)

Section CredentialRotation.

Context (openai : Provider).

Lemma complete_environment_effect base_url api_key api_version
    model prompt system_prompt history_messages kwargs w :
  str_or_none base_url -> str_or_none api_key -> str_or_none api_version ->
  environment_effect base_url api_key api_version w
    (azure_openai_complete_if_cache openai model prompt system_prompt
       history_messages base_url api_key api_version kwargs w).2.
Proof.
  intros Hurl Hkey Hver. apply run_settles; try assumption. intros w1.
  apply (complete_body_settles openai _ _ _ Hurl Hkey Hver).
Qed.

(** A dispatch to a descriptor that wraps the completion adapter and fixes
    a model and an API key leaves that key in the process environment, and
    every request of the dispatch was sent with it: the rotation of
    descriptors is a rotation of the process-wide key. *)
Theorem dispatch_installs_descriptor_key (self self' : MultiModel.t)
    (m : Model.t) prompt kw w (model : pyval) (key : string) :
  MultiModel._next_model self = (Ok m, self') ->
  Model.gen_func m = complete_if_cache_with_keywords openai ->
  Model.kwargs m = {[ "model" := model; "api_key" := PyStr key ]} ->
  key <> EmptyString ->
  caller_arguments prompt kw ##ₘ Model.kwargs m ->
  str_or_none (default PyNone (kw !! "base_url")) ->
  str_or_none (default PyNone (kw !! "api_version")) ->
  environ (MultiModel.world_after (MultiModel.llm_model_func self prompt kw w))
    !! "AZURE_OPENAI_API_KEY" = Some key
  /\ Forall (fun rq => client_api_key (req_client rq) = Some key)
       (drop (length (sent w))
          (sent (MultiModel.world_after
                   (MultiModel.llm_model_func self prompt kw w)))).
Proof.
  intros Hnext Hgen Hkw Hkey Hdisj Hurl Hver.
  rewrite (llm_model_func_selected _ _ _ _ _ _ Hnext).
  rewrite bool_decide_eq_true_2 by exact Hdisj.
  cbn [MultiModel.world_after]. rewrite Hgen. unfold complete_if_cache_with_keywords.
  set (args := caller_arguments prompt kw ∪ Model.kwargs m).
  assert (Hmodel : args !! "model" = Some model).
  { subst args. rewrite lookup_union_r.
    - rewrite Hkw. by rewrite lookup_insert_eq.
    - apply caller_arguments_reserved. unfold reserved_keys.
      apply elem_of_cons. by left. }
  assert (Hprompt : args !! "prompt" = Some prompt).
  { subst args. apply lookup_union_Some_l. unfold caller_arguments.
    apply lookup_union_Some_l. unfold named_arguments.
    by rewrite !lookup_insert_ne, lookup_insert_eq by discriminate. }
  assert (Hapikey : args !! "api_key" = Some (PyStr key)).
  { subst args. apply lookup_union_Some_raw. right.
    assert (Hm : Model.kwargs m !! "api_key" = Some (PyStr key)).
    { rewrite Hkw. by rewrite lookup_insert_ne, lookup_singleton_eq by discriminate. }
    split; [| exact Hm]. exact (map_disjoint_Some_r _ _ _ _ Hdisj Hm). }
  assert (Hother : forall name,
             name ∈ ["base_url"; "api_version"] ->
             args !! name = kw !! name).
  { intros name Hin. subst args. rewrite lookup_union_l.
    2: { rewrite Hkw.
         repeat (apply elem_of_cons in Hin as [-> | Hin]);
           [| | by apply elem_of_nil in Hin];
           by rewrite lookup_insert_ne, lookup_singleton_ne by discriminate. }
    unfold caller_arguments. rewrite lookup_union_r.
    2: { apply eq_None_not_Some. intros Hs%named_arguments_lookup.
         repeat (apply elem_of_cons in Hin as [-> | Hin]);
           [| | by apply elem_of_nil in Hin];
           repeat (apply elem_of_cons in Hs as [Hs | Hs]; [discriminate |]);
           by apply elem_of_nil in Hs. }
    unfold remaining_options, star_kwargs. cbn [foldr].
    repeat (apply elem_of_cons in Hin as [-> | Hin]);
      [| | by apply elem_of_nil in Hin];
      by rewrite !lookup_delete_ne by discriminate. }
  rewrite Hmodel, Hprompt, Hapikey.
  rewrite (Hother "base_url") by (apply elem_of_cons; by left).
  rewrite (Hother "api_version")
    by (apply elem_of_cons; right; apply elem_of_cons; by left).
  change (default PyNone (Some (PyStr key))) with (PyStr key).
  match goal with
  | |- context [azure_openai_complete_if_cache openai model prompt ?sp ?hm
                  ?b (PyStr key) ?v ?opts w] =>
      pose proof (complete_environment_effect b (PyStr key) v model prompt
                    sp hm opts w Hurl (or_intror (ex_intro _ key eq_refl)) Hver)
        as (Hset & _ & new & Hsent & Hall)
  end.
  assert (Hk : environ
                 (azure_openai_complete_if_cache openai model prompt
                    (default PyNone (args !! "system_prompt"))
                    (default (PyList []) (args !! "history_messages"))
                    (default PyNone (kw !! "base_url")) (PyStr key)
                    (default PyNone (kw !! "api_version"))
                    (star_kwargs ["model"; "prompt"; "system_prompt";
                                  "history_messages"; "base_url"; "api_key";
                                  "api_version"] args) w).2
                 !! "AZURE_OPENAI_API_KEY" = Some key).
  { apply (Hset "AZURE_OPENAI_API_KEY" (PyStr key)); [| reflexivity | exact Hkey].
    unfold overrides. apply elem_of_cons. by left. }
  split; [exact Hk |].
  rewrite Hsent, drop_app_length.
  eapply Forall_impl; [exact Hall |].
  intros rq ->. exact Hk.
Qed.

End CredentialRotation.

Lemma dispatch_installs_descriptor_key_witness :
  MultiModel._next_model
    (MultiModel.__init__ [Examples.azure_with_key "KEY_A";
                          Examples.azure_with_key "KEY_B"])
    = (Ok (Examples.azure_with_key "KEY_B"),
       {| MultiModel._models := [Examples.azure_with_key "KEY_A";
                                 Examples.azure_with_key "KEY_B"];
          MultiModel._current_model := 1 |})
  /\ "KEY_B" <> EmptyString
  /\ caller_arguments Examples.hello ∅
       ##ₘ Model.kwargs (Examples.azure_with_key "KEY_B")
  /\ str_or_none PyNone
  /\ environ
       (MultiModel.world_after
          (MultiModel.llm_model_func
             (MultiModel.__init__ [Examples.azure_with_key "KEY_A";
                                   Examples.azure_with_key "KEY_B"])
             Examples.hello ∅ Examples.w0))
       !! "AZURE_OPENAI_API_KEY" = Some "KEY_B".
Proof.
  assert (H0 : str_or_none PyNone) by (by left).
  assert (Hd : caller_arguments Examples.hello ∅
                 ##ₘ Model.kwargs (Examples.azure_with_key "KEY_B")).
  { apply (bool_decide_unpack _). vm_compute. exact I. }
  split; [reflexivity |]. split; [discriminate |]. split; [exact Hd |].
  split; [exact H0 |].
  exact (proj1 (dispatch_installs_descriptor_key Examples.helpful
                  (MultiModel.__init__ [Examples.azure_with_key "KEY_A";
                                        Examples.azure_with_key "KEY_B"])
                  _ (Examples.azure_with_key "KEY_B") Examples.hello ∅
                  Examples.w0 (PyStr "gpt-4o") "KEY_B"
                  eq_refl eq_refl eq_refl ltac:(discriminate) Hd H0 H0)).
Defined.
